(** * ICE over TCP: the stream demultiplexer and the candidate value object

    A shallow embedding of
      - [src/projects/modules/ice/ice_tcp_demultiplexer.{h,cpp}]
        (class [IceTcpDemultiplexer]), and
      - [src/projects/modules/ice/ice_candidate.h] (class [IceCandidate]).

    Bytes are [Byte.byte]; the C++ fixed-width integers are [Z] with the
    wrap-around written out; the object state is an explicit record that
    every member function takes and returns. *)

From Stdlib Require Import Strings.Ascii Strings.String Strings.Byte.
From Stdlib Require Import ZArith NArith List Lia Bool.
From Stdlib Require Import Numbers.DecimalString Numbers.DecimalN.
From Stdlib Require Import Sorting.Permutation Structures.OrderedTypeEx.
Import ListNotations.

Local Open Scope Z_scope.

(** ** Part I.  The demultiplexer: data model and member functions *)

Module Demux.

(** [enum class ConnectionType : uint8_t] (ice_tcp_demultiplexer.h:23). *)
Inductive ConnectionType : Type :=
| Unknown
| TurnRelay
| IceTcpDirect.

(** Modelled from the spec: [IcePacketIdentifier::PacketType] is declared in
    ice_packet_identifier.h, which is not among the sources.  The
    demultiplexer names three of its values (STUN, TURN_CHANNEL_DATA and
    UNKNOWN), and the specification lists exactly these three. *)
Inductive PacketType : Type :=
| STUN
| TURN_CHANNEL_DATA
| UNKNOWN.

(** [enum class ExtractResult : int8_t] (ice_tcp_demultiplexer.h:79). *)
Inductive ExtractResult : Type :=
| SUCCESS
| NOT_ENOUGH_BUFFER
| FAILED.

(** [class Packet] (ice_tcp_demultiplexer.h:37): a type tag and the bytes. *)
Record Packet : Type := mkPacket {
  _type : PacketType;
  _data : list byte
}.

(** The three data members of [IceTcpDemultiplexer]
    (ice_tcp_demultiplexer.h:92-94).  The queue is a list whose head is the
    front of the [std::queue]. *)
Record State : Type := mkState {
  _buffer : list byte;
  _packets : list Packet;
  _connection_type : ConnectionType
}.

(** What a header decoder of the STUN library reports to the demultiplexer:
    either the length it read, or one of the two failures the demultiplexer
    tells apart ([NOT_ENOUGH_DATA] against every other error code). *)
Inductive HeaderResult : Type :=
| Parsed (length : Z)
| NOT_ENOUGH_DATA
| INVALID_DATA.

(** The collaborators of the demultiplexer.  Their code ([IcePacketIdentifier],
    [StunMessage], [ChannelDataMessage]) is outside the sources, so they are
    an interface the model is parameterised by:
      - [FindPacketType b] is [IcePacketIdentifier::FindPacketType];
      - [StunMessage_ParseHeader b] is [StunMessage::ParseHeader] on a stream
        over [b]; [Parsed m] carries [GetMessageLength()];
      - [ChannelDataMessage_LoadHeader b] is [ChannelDataMessage::LoadHeader];
        [Parsed n] carries [GetPacketLength()]. *)
Class Collaborators : Type := {
  FindPacketType : list byte -> PacketType;
  StunMessage_ParseHeader : list byte -> HeaderResult;
  ChannelDataMessage_LoadHeader : list byte -> HeaderResult
}.

Definition MINIMUM_PACKET_HEADER_SIZE : Z := 4.
Definition RFC4571_HEADER_SIZE : Z := 2.

(** [StunMessage::DefaultHeaderLength()]: the fixed STUN header, 20 bytes. *)
Definition DefaultHeaderLength : Z := 20.

(** Conversion to [uint16_t] and to [uint32_t]. *)
Definition uint16 (z : Z) : Z := z mod 2 ^ 16.
Definition uint32 (z : Z) : Z := z mod 2 ^ 32.

(** The value of a byte as the [uint8_t] the code reads. *)
Definition u8 (b : byte) : Z := Z.of_N (Byte.to_N b).

(** [ov::Data::GetLength], [data[i]] after [GetDataAs<uint8_t>()], and the
    two [Subdata] overloads.  The byte container is outside the sources; a
    range that reaches past the end is modelled as yielding the bytes that
    are there.  [ExtractRfc4571Frame] checks the length before it cuts; the
    two TURN extractors leave that check to their decoder. *)
Definition GetLength (d : list byte) : Z := Z.of_nat (length d).
Definition at_ (d : list byte) (i : nat) : Z := u8 (nth i d x00).
Definition Subdata (d : list byte) (offset len : Z) : list byte :=
  firstn (Z.to_nat len) (skipn (Z.to_nat offset) d).
Definition Subdata_from (d : list byte) (offset : Z) : list byte :=
  skipn (Z.to_nat offset) d.

(** The constructor (ice_tcp_demultiplexer.h:30): an empty buffer, no packet,
    type [Unknown]. *)
Definition init : State := mkState [] [] Unknown.

(** The setter and the getters of the connection type
    (ice_tcp_demultiplexer.h:69-73); the setter assigns without a test. *)
Definition SetConnectionType (s : State) (t : ConnectionType) : State :=
  mkState (_buffer s) (_packets s) t.
Definition GetConnectionType (s : State) : ConnectionType := _connection_type s.
Definition IsIceTcpDirect (s : State) : bool :=
  match _connection_type s with IceTcpDirect => true | _ => false end.

(** [IsAvailablePacket] (ice_tcp_demultiplexer.cpp:19). *)
Definition IsAvailablePacket (s : State) : bool :=
  match _packets s with [] => false | _ :: _ => true end.

(** [PopPacket] (ice_tcp_demultiplexer.cpp:24): [nullptr] on an empty queue,
    otherwise the front packet, which leaves the queue. *)
Definition PopPacket (s : State) : option Packet * State :=
  match _packets s with
  | [] => (None, s)
  | p :: rest => (Some p, mkState (_buffer s) rest (_connection_type s))
  end.

(** [_packets.push(packet)] followed by the assignment of the trimmed buffer,
    the last two steps of every extractor. *)
Definition push (s : State) (p : Packet) (buffer' : list byte) : State :=
  mkState buffer' (_packets s ++ [p]) (_connection_type s).

(** [DetectConnectionType] (ice_tcp_demultiplexer.cpp:40). *)
Definition DetectConnectionType (s : State) : bool * State :=
  let data := _buffer s in
  if GetLength data <? RFC4571_HEADER_SIZE then (false, s)
  else
    let first_byte := at_ data 0 in
    let rfc4571 :=
      if GetLength data >=? RFC4571_HEADER_SIZE + 1 then
        let third_byte := at_ data 2 in
        if (first_byte =? 0) && (third_byte >=? 0) && (third_byte <=? 3) then
          let second_byte := at_ data 1 in
          second_byte >=? 20
        else false
      else false in
    if rfc4571 then (true, SetConnectionType s IceTcpDirect)
    else if (first_byte >=? 0) && (first_byte <=? 3)
      then (true, SetConnectionType s TurnRelay)
    else if (first_byte >=? 64) && (first_byte <=? 79)
      then (true, SetConnectionType s TurnRelay)
    else (false, s).

(** [ExtractRfc4571Frame] (ice_tcp_demultiplexer.cpp:245). *)
Definition frame_length_of (data : list byte) : Z :=
  uint16 (Z.lor (Z.shiftl (uint16 (at_ data 0)) 8) (uint16 (at_ data 1))).

Definition ExtractRfc4571Frame `{Collaborators} (s : State)
  : ExtractResult * State :=
  let data := _buffer s in
  if GetLength data <? RFC4571_HEADER_SIZE then (NOT_ENOUGH_BUFFER, s)
  else
    let frame_length := frame_length_of data in
    if (frame_length <? 20) || (frame_length >? 65535) then (FAILED, s)
    else
      let total_size := RFC4571_HEADER_SIZE + frame_length in
      if GetLength data <? total_size then (NOT_ENOUGH_BUFFER, s)
      else
        let payload := Subdata data RFC4571_HEADER_SIZE frame_length in
        let type := FindPacketType payload in
        (SUCCESS, push s (mkPacket type payload) (Subdata_from data total_size)).

(** [ExtractStunMessage] (ice_tcp_demultiplexer.cpp:187). *)
Definition ExtractStunMessage `{Collaborators} (s : State)
  : ExtractResult * State :=
  match StunMessage_ParseHeader (_buffer s) with
  | NOT_ENOUGH_DATA => (NOT_ENOUGH_BUFFER, s)
  | INVALID_DATA => (FAILED, s)
  | Parsed message_length =>
      let packet_size := uint32 (DefaultHeaderLength + message_length) in
      let data := Subdata (_buffer s) 0 packet_size in
      (SUCCESS, push s (mkPacket STUN data) (Subdata_from (_buffer s) packet_size))
  end.

(** [ExtractChannelMessage] (ice_tcp_demultiplexer.cpp:217). *)
Definition ExtractChannelMessage `{Collaborators} (s : State)
  : ExtractResult * State :=
  match ChannelDataMessage_LoadHeader (_buffer s) with
  | NOT_ENOUGH_DATA => (NOT_ENOUGH_BUFFER, s)
  | INVALID_DATA => (FAILED, s)
  | Parsed packet_length =>
      let packet_size := uint32 packet_length in
      let data := Subdata (_buffer s) 0 packet_size in
      (SUCCESS,
       push s (mkPacket TURN_CHANNEL_DATA data)
         (Subdata_from (_buffer s) packet_size))
  end.

(** The [while] loop of [ParseData] for ICE-TCP direct
    (ice_tcp_demultiplexer.cpp:124-141).  [fuel] bounds the number of
    iterations; [None] is the loop still running when it is used up. *)
Fixpoint rfc4571_loop `{Collaborators} (fuel : nat) (s : State)
  : option (bool * State) :=
  match fuel with
  | O => None
  | S fuel' =>
      if GetLength (_buffer s) >=? RFC4571_HEADER_SIZE then
        match ExtractRfc4571Frame s with
        | (SUCCESS, s') => rfc4571_loop fuel' s'
        | (NOT_ENOUGH_BUFFER, s') => Some (true, s')
        | (FAILED, s') => Some (false, s')
        end
      else Some (true, s)
  end.

(** The [while] loop of [ParseData] for TURN relay
    (ice_tcp_demultiplexer.cpp:145-184). *)
Fixpoint turn_loop `{Collaborators} (fuel : nat) (s : State)
  : option (bool * State) :=
  match fuel with
  | O => None
  | S fuel' =>
      if GetLength (_buffer s) >? MINIMUM_PACKET_HEADER_SIZE then
        match
          match FindPacketType (_buffer s) with
          | STUN => Some (ExtractStunMessage s)
          | TURN_CHANNEL_DATA => Some (ExtractChannelMessage s)
          | UNKNOWN => None
          end
        with
        | None => Some (false, s)
        | Some (SUCCESS, s') => turn_loop fuel' s'
        | Some (NOT_ENOUGH_BUFFER, s') => Some (true, s')
        | Some (FAILED, s') => Some (false, s')
        end
      else Some (true, s)
  end.

(** The first block of [ParseData] (ice_tcp_demultiplexer.cpp:106-119):
    [inl r] is the early [return true]; [inr s'] goes on to the loops. *)
Definition detect_phase (s : State) : State + State :=
  match _connection_type s with
  | Unknown =>
      match DetectConnectionType s with
      | (true, s') => inr s'
      | (false, s') =>
          if GetLength (_buffer s') <? RFC4571_HEADER_SIZE + 1 then inl s'
          else inr (SetConnectionType s' IceTcpDirect)
      end
  | _ => inr s
  end.

(** Every iteration that goes on removes at least one byte unless a decoder
    reports an empty packet, so one more than the buffer length is enough
    fuel for every loop that ends. *)
Definition loop_fuel (s : State) : nat := S (length (_buffer s)).

(** [ParseData] (ice_tcp_demultiplexer.cpp:103). *)
Definition ParseData `{Collaborators} (s : State) : option (bool * State) :=
  match detect_phase s with
  | inl s' => Some (true, s')
  | inr s' =>
      match _connection_type s' with
      | IceTcpDirect => rfc4571_loop (loop_fuel s') s'
      | _ => turn_loop (loop_fuel s') s'
      end
  end.

(** [AppendData] (ice_tcp_demultiplexer.cpp:7 and :13). *)
Definition AppendData `{Collaborators} (s : State) (data : list byte)
  : option (bool * State) :=
  ParseData (mkState (_buffer s ++ data) (_packets s) (_connection_type s)).

End Demux.

(** ** Part II.  Driving the demultiplexer *)

Module Driver.
Import Demux.

(** The public operations of the class, as a caller issues them. *)
Inductive Op : Type :=
| OpAppendData (data : list byte)
| OpPopPacket
| OpIsAvailablePacket
| OpGetConnectionType
| OpIsIceTcpDirect
| OpSetConnectionType (t : ConnectionType).

(** The state after one operation; [None] when [AppendData] does not return. *)
Definition exec `{Collaborators} (s : State) (o : Op) : option State :=
  match o with
  | OpAppendData data =>
      match AppendData s data with
      | Some (_, s') => Some s'
      | None => None
      end
  | OpPopPacket => Some (snd (PopPacket s))
  | OpIsAvailablePacket => Some s
  | OpGetConnectionType => Some s
  | OpIsIceTcpDirect => Some s
  | OpSetConnectionType t => Some (SetConnectionType s t)
  end.

Fixpoint run `{Collaborators} (s : State) (ops : list Op) : option State :=
  match ops with
  | [] => Some s
  | o :: ops' =>
      match exec s o with
      | Some s' => run s' ops'
      | None => None
      end
  end.

Definition is_override (o : Op) : bool :=
  match o with OpSetConnectionType _ => true | _ => false end.

(** Feed the chunks in order with [AppendData]; the results of the calls and
    the final state. *)
Fixpoint feed `{Collaborators} (s : State) (chunks : list (list byte))
  : option (list bool * State) :=
  match chunks with
  | [] => Some ([], s)
  | c :: chunks' =>
      match AppendData s c with
      | Some (r, s') =>
          match feed s' chunks' with
          | Some (rs, s'') => Some (r :: rs, s'')
          | None => None
          end
      | None => None
      end
  end.

(** Pop until the queue is empty: the packets a consumer receives, in order. *)
Fixpoint drain (n : nat) (s : State) : list Packet :=
  match n with
  | O => []
  | S n' =>
      match PopPacket s with
      | (Some p, s') => p :: drain n' s'
      | (None, _) => []
      end
  end.

Definition pop_all (s : State) : list Packet := drain (S (length (_packets s))) s.

(** The state [AppendData] hands to [ParseData]. *)
Definition appended (s : State) (data : list byte) : State :=
  mkState (_buffer s ++ data) (_packets s) (_connection_type s).

(** What an extractor may do to the state: it never touches the connection
    type, only appends to the queue, and leaves the state alone unless it
    succeeds. *)
Definition frame_effect (s : State) (out : ExtractResult * State) : Prop :=
  _connection_type (snd out) = _connection_type s
  /\ (exists new, _packets (snd out) = _packets s ++ new)
  /\ (fst out <> SUCCESS -> snd out = s).

(** The queue of [s'] is the queue of [s] with packets added at the back. *)
Definition extends (s s' : State) : Prop :=
  exists new, _packets s' = _packets s ++ new.

End Driver.

(** ** Part III.  Stand-ins for the collaborators *)

Module Wire.
Import Demux.

Definition be16 (d : list byte) (i : nat) : Z := 256 * at_ d i + at_ d (S i).

(** Modelled from the spec: [IcePacketIdentifier::FindPacketType] is not among
    the sources.  The specification has it label a byte slice STUN,
    TURN_CHANNEL_DATA or UNKNOWN "based on leading byte patterns per RFC
    7983": a first byte in [0x00, 0x03] is STUN and one in [0x40, 0x4F] is
    TURN Channel Data. *)
Definition classify (d : list byte) : PacketType :=
  match d with
  | [] => UNKNOWN
  | b :: _ =>
      if u8 b <=? 3 then STUN
      else if (64 <=? u8 b) && (u8 b <=? 79) then TURN_CHANNEL_DATA
      else UNKNOWN
  end.

(** Modelled from the spec: [StunMessage::ParseHeader] is not among the
    sources.  The specification gives it a fixed 20-byte RFC 5389 header
    (message type with its two top bits zero, a 16-bit message length, the
    magic cookie, the transaction id), the answers "insufficient data" and
    "malformed", and the on-wire total 20 + message length. *)
Definition stun_parse_header (d : list byte) : HeaderResult :=
  if GetLength d <? 20 then NOT_ENOUGH_DATA
  else if at_ d 0 >=? 64 then INVALID_DATA
  else if negb ((be16 d 4 =? 8466) && (be16 d 6 =? 42050)) then INVALID_DATA
  else if negb (be16 d 2 mod 4 =? 0) then INVALID_DATA
  else if GetLength d <? 20 + be16 d 2 then NOT_ENOUGH_DATA
  else Parsed (be16 d 2).

(** Modelled from the spec: [ChannelDataMessage::LoadHeader] is not among the
    sources.  The specification gives the message a 4-byte header (a channel
    number in 0x4000..0x7FFF, a 16-bit length) and a total length that counts
    the header and the payload padded to a 4-byte boundary. *)
Definition channel_load_header (d : list byte) : HeaderResult :=
  if GetLength d <? 4 then NOT_ENOUGH_DATA
  else if negb ((16384 <=? be16 d 0) && (be16 d 0 <=? 32767)) then INVALID_DATA
  else
    let total := 4 + 4 * ((be16 d 2 + 3) / 4) in
    if GetLength d <? total then NOT_ENOUGH_DATA else Parsed total.

Definition collaborators : Collaborators := {|
  FindPacketType := classify;
  StunMessage_ParseHeader := stun_parse_header;
  ChannelDataMessage_LoadHeader := channel_load_header
|}.

(** A TURN Send indication (type 0x0016) with one 4-byte attribute: 24 bytes.
    Its first two bytes read as an RFC 4571 length are 22, the number of
    bytes that follow them. *)
Definition send_indication : list byte :=
  [x00; x16; x00; x04; x21; x12; xa4; x42;
   x01; x02; x03; x04; x05; x06; x07; x08; x09; x0a; x0b; x0c;
   x80; x22; x00; x00].

(** A 20-byte STUN binding request (type 0x0001, no attribute). *)
Definition binding_request : list byte :=
  [x00; x01; x00; x00; x21; x12; xa4; x42;
   x01; x02; x03; x04; x05; x06; x07; x08; x09; x0a; x0b; x0c].

End Wire.

(** ** Part IV.  [std::map<ov::String, ov::String>] *)

Module StdMap.

(** The container of [IceCandidate::_extension_attributes]
    (ice_candidate.h:148).  A [std::map] holds its pairs in ascending key
    order with no key twice, and iterating it yields them in that order: it
    is modelled as the list an iteration yields.  [ascending] below is the
    invariant every [std::map] value satisfies. *)
Definition t : Type := list (string * string).

(** The order of the keys, [operator<] of [ov::String], whose code is
    outside the sources: taken to be the order of the strings as character
    sequences.  What is proved of the container uses only that it is a
    strict total order. *)
Definition key_lt (a b : string) : bool := String.ltb a b.

(** Strictly ascending in the key. *)
Fixpoint ascending (m : t) : bool :=
  match m with
  | [] => true
  | (k, _) :: m' => forallb (fun e => key_lt k (fst e)) m' && ascending m'
  end.

(** The two ways [std::map] stores a pair under a key that is already
    present: [insert] and [emplace] keep the value that is there,
    [operator[]] followed by an assignment and [insert_or_assign] replace
    it. *)
Inductive DuplicatePolicy : Type :=
| KeepFirst
| KeepLast.

(** Storing [(k, v)].  Two keys are the same key when neither is below the
    other. *)
Fixpoint put (policy : DuplicatePolicy) (k v : string) (m : t) : t :=
  match m with
  | [] => [(k, v)]
  | (k', v') :: m' =>
      if key_lt k k' then (k, v) :: m
      else if key_lt k' k then (k', v') :: put policy k v m'
      else match policy with
           | KeepFirst => (k', v') :: m'
           | KeepLast => (k', v) :: m'
           end
  end.

(** [std::map::find]. *)
Fixpoint find (k : string) (m : t) : option string :=
  match m with
  | [] => None
  | (k', v') :: m' =>
      if key_lt k k' then None
      else if key_lt k' k then find k m'
      else Some v'
  end.

(** Every key of [m] is above, respectively below, [k]. *)
Definition above (k : string) (m : t) : bool := forallb (fun e => key_lt k (fst e)) m.

End StdMap.

(** ** Part V.  The candidate value object *)

Module Candidate.
Local Open Scope string_scope.



(** Modelled from the spec: the body of [IceCandidate::AddExtensionAttributes]
    (declared at ice_candidate.h:106) is not among the sources.  The member
    it fills is the [std::map] above and the specification calls it a
    mapping from attribute name to value: the pair is stored under its name.
    Which value a name already present keeps is not stated, so it is the
    parameter [policy]. *)
Definition AddExtensionAttributes (policy : StdMap.DuplicatePolicy)
    (key value : string) (m : StdMap.t) : StdMap.t :=
  StdMap.put policy key value m.

(** Conversion to [uint32_t]. *)
Definition uint32 (z : Z) : Z := (z mod 2 ^ 32)%Z.

(** Modelled from the spec: the body of [IceCandidate::CalculatePriority]
    (declared at ice_candidate.h:116) is not among the sources.  The
    specification gives
    [priority = (2^24) * type_preference + (2^8) * local_preference
                + (256 - component_id)]
    in 32-bit unsigned arithmetic; every operation wraps as [uint32_t]
    does. *)
Definition CalculatePriority (type_preference local_preference component_id : Z) : Z :=
  uint32 (uint32 (uint32 (2 ^ 24 * type_preference)
                  + uint32 (2 ^ 8 * local_preference))
          + uint32 (256 - component_id))%Z.

(** *** The candidate line

    [ParseFromString] and [GetCandidateString] are only declared in
    ice_candidate.h.  Everything from here to the end of the module models
    them from the specification's grammar and serialization order. *)

(** The separator, and the strings that hold none: the tokens. *)
Definition is_space (c : ascii) : bool := Ascii.eqb c " ".


(** Modelled from the spec: "all whitespace separators are single ASCII
    SP".  The line is cut at every space: [n] spaces give [n + 1] tokens,
    some possibly empty. *)
Fixpoint split_sp (s : string) : list string :=
  match s with
  | EmptyString => [EmptyString]
  | String c s' =>
      if is_space c then EmptyString :: split_sp s'
      else match split_sp s' with
           | tok :: toks => String c tok :: toks
           | [] => [String c EmptyString]
           end
  end.
















(** *** What the tokens of a parsed line satisfy *)





End Candidate.

(** ** Part VI.  Framing: what a call consumes *)

Module Framing.
Import Demux Driver.

(** The byte whose value is [z mod 256]. *)
Definition byte_of (z : Z) : byte :=
  match Byte.of_N (Z.to_N (z mod 256)) with
  | Some b => b
  | None => x00
  end.

(** The RFC 4571 frame of a payload, as [ExtractRfc4571Frame] reads it back:
    the payload length in two bytes, high byte first, then the payload. *)
Definition rfc4571_frame (payload : list byte) : list byte :=
  byte_of (GetLength payload / 256) :: byte_of (GetLength payload) :: payload.

(** The state with [q] queued in front of its packets. *)
Definition requeue (q : list Packet) (s : State) : State :=
  mkState (_buffer s) (q ++ _packets s) (_connection_type s).

(** The ICE-TCP direct loop of [ParseData] (ice_tcp_demultiplexer.cpp:124-141)
    as a relation between the state it starts from, the value returned and
    the state it leaves: one rule per way an iteration goes. *)
Inductive rfc4571_run `{Collaborators} : State -> bool -> State -> Prop :=
| run_below_header (s : State) :
    GetLength (_buffer s) < 2 ->
    rfc4571_run s true s
| run_invalid_length (s : State) :
    2 <= GetLength (_buffer s) ->
    frame_length_of (_buffer s) < 20 ->
    rfc4571_run s false s
| run_incomplete (s : State) :
    2 <= GetLength (_buffer s) ->
    20 <= frame_length_of (_buffer s) ->
    GetLength (_buffer s) < 2 + frame_length_of (_buffer s) ->
    rfc4571_run s true s
| run_frame (s : State) (r : bool) (s' : State) :
    20 <= frame_length_of (_buffer s) ->
    2 + frame_length_of (_buffer s) <= GetLength (_buffer s) ->
    rfc4571_run
      (push s
         (mkPacket
            (FindPacketType (Subdata (_buffer s) 2 (frame_length_of (_buffer s))))
            (Subdata (_buffer s) 2 (frame_length_of (_buffer s))))
         (Subdata_from (_buffer s) (2 + frame_length_of (_buffer s))))
      r s' ->
    rfc4571_run s r s'.

(** A packet the ICE-TCP direct loop can enqueue: between 20 and 65535
    bytes, labelled by the classifier applied to them. *)
Definition direct_packet `{Collaborators} (p : Packet) : Prop :=
  20 <= GetLength (_data p) <= 65535 /\ _type p = FindPacketType (_data p).

(** The bytes a queue of ICE-TCP direct packets came from. *)
Definition frames (ps : list Packet) : list byte :=
  flat_map (fun p => rfc4571_frame (_data p)) ps.

(** What is left in the buffer holds no complete frame and no invalid
    length: fewer than two bytes, or a valid length with bytes missing. *)
Definition awaiting_bytes (buffer : list byte) : Prop :=
  GetLength buffer < 2
  \/ (20 <= 256 * at_ buffer 0 + at_ buffer 1
      /\ GetLength buffer < 2 + (256 * at_ buffer 0 + at_ buffer 1)).

(** What is left in the buffer starts with a length below 20. *)
Definition stuck_on_length (buffer : list byte) : Prop :=
  2 <= GetLength buffer /\ 256 * at_ buffer 0 + at_ buffer 1 < 20.

(** All the bytes a run of operations appended, in order. *)
Fixpoint appended_bytes (ops : list Op) : list byte :=
  match ops with
  | [] => []
  | OpAppendData data :: ops' => data ++ appended_bytes ops'
  | _ :: ops' => appended_bytes ops'
  end.

(** A packet the TURN relay loop can enqueue: its label is one of the two
    the extractors write. *)
Definition turn_labelled (p : Packet) : Prop :=
  _type p = STUN \/ _type p = TURN_CHANNEL_DATA.

(** One turn of the [while] loop [ParseData] runs for the type [t]
    (ice_tcp_demultiplexer.cpp:124-140 for IceTcpDirect, :145-181
    otherwise): [None] when the loop condition is false, else the result of
    the extractor the body calls and the state it leaves; a buffer of neither
    STUN nor Channel Data is the body's own [return false]. *)
Definition iteration `{Collaborators} (t : ConnectionType) (s : State)
  : option (ExtractResult * State) :=
  match t with
  | IceTcpDirect =>
      if GetLength (_buffer s) >=? RFC4571_HEADER_SIZE
      then Some (ExtractRfc4571Frame s) else None
  | _ =>
      if GetLength (_buffer s) >? MINIMUM_PACKET_HEADER_SIZE then
        match FindPacketType (_buffer s) with
        | STUN => Some (ExtractStunMessage s)
        | TURN_CHANNEL_DATA => Some (ExtractChannelMessage s)
        | UNKNOWN => Some (FAILED, s)
        end
      else None
  end.

(** [extracted t s ps s']: from [s], successive turns of the loop succeed,
    each pushing one packet at the back of the queue and trimming the buffer;
    [ps] are the packets pushed, in order, and [s'] the state reached. *)
Inductive extracted `{Collaborators} (t : ConnectionType)
  : State -> list Packet -> State -> Prop :=
| extracted_none (s : State) : extracted t s [] s
| extracted_one (s : State) (p : Packet) (buffer' : list byte)
    (ps : list Packet) (s' : State) :
    iteration t s = Some (SUCCESS, push s p buffer') ->
    extracted t (push s p buffer') ps s' ->
    extracted t s (p :: ps) s'.

(** A Channel Data message on channel 0x4000 with a 4-byte payload. *)
Definition channel_data_message : list byte :=
  [x40; x00; x00; x04; x0a; x0b; x0c; x0d].

End Framing.
(** ** Part VII.  Properties of the demultiplexer *)

Section DemuxFacts.
Import Demux Driver.
Context {C : Collaborators}.

(** *** Arithmetic of the byte accessors *)

Lemma u8_range (b : byte) : 0 <= u8 b < 256.
Proof.
  unfold u8. pose proof (Byte.to_N_bounded b) as Hb. lia.
Qed.

Lemma at_range (d : list byte) (i : nat) : 0 <= at_ d i < 256.
Proof. apply u8_range. Qed.

Lemma lor_shiftl8 (hi lo : Z) :
  0 <= hi -> 0 <= lo < 256 -> Z.lor (Z.shiftl hi 8) lo = 256 * hi + lo.
Proof.
  intros Hhi Hlo.
  assert (Hdisj : Z.land (Z.shiftl hi 8) lo = 0).
  { apply Z.bits_inj'. intros n Hn.
    rewrite Z.land_spec, Z.bits_0.
    destruct (Z_lt_ge_dec n 8) as [Hlt | Hge].
    - rewrite Z.shiftl_spec_low by lia. reflexivity.
    - assert (Hlo' : Z.testbit lo n = false).
      { destruct (Z.eq_dec lo 0) as [-> | Hnz]; [apply Z.bits_0 |].
        apply Z.bits_above_log2; [lia |].
        apply Z.log2_lt_pow2; [lia |].
        apply Z.lt_le_trans with (m := 2 ^ 8); [lia |].
        apply Z.pow_le_mono_r; lia. }
      rewrite Hlo'. apply andb_false_r. }
  rewrite <- Z.lxor_lor by exact Hdisj.
  rewrite <- Z.add_nocarry_lxor by exact Hdisj.
  rewrite Z.shiftl_mul_pow2 by lia. lia.
Qed.

(** The frame length is the big-endian reading of the first two bytes. *)
Lemma frame_length_of_be (d : list byte) :
  frame_length_of d = 256 * at_ d 0 + at_ d 1.
Proof.
  unfold frame_length_of, uint16.
  pose proof (at_range d 0) as H0. pose proof (at_range d 1) as H1.
  rewrite (Z.mod_small (at_ d 0)) by lia.
  rewrite (Z.mod_small (at_ d 1)) by lia.
  rewrite lor_shiftl8 by lia.
  apply Z.mod_small. lia.
Qed.

Lemma frame_length_of_range (d : list byte) : 0 <= frame_length_of d <= 65535.
Proof.
  rewrite frame_length_of_be.
  pose proof (at_range d 0). pose proof (at_range d 1). lia.
Qed.

Lemma GetLength_app (a b : list byte) : GetLength (a ++ b) = GetLength a + GetLength b.
Proof. unfold GetLength. rewrite length_app. lia. Qed.

Lemma GetLength_nonneg (d : list byte) : 0 <= GetLength d.
Proof. unfold GetLength. lia. Qed.

(** *** What one extraction does to the state *)

Lemma push_effect (s : State) (p : Packet) (b : list byte) :
  frame_effect s (SUCCESS, push s p b).
Proof.
  repeat split; simpl.
  - exists [p]. reflexivity.
  - intros H. contradiction.
Qed.

Lemma stay_effect (s : State) (r : ExtractResult) : frame_effect s (r, s).
Proof.
  repeat split; simpl.
  exists []. symmetry. apply app_nil_r.
Qed.

Lemma ExtractRfc4571Frame_effect (s : State) : frame_effect s (ExtractRfc4571Frame s).
Proof.
  unfold ExtractRfc4571Frame.
  destruct (GetLength (_buffer s) <? RFC4571_HEADER_SIZE); [apply stay_effect |].
  destruct ((frame_length_of (_buffer s) <? 20) || (frame_length_of (_buffer s) >? 65535));
    [apply stay_effect |].
  destruct (GetLength (_buffer s) <? RFC4571_HEADER_SIZE + frame_length_of (_buffer s));
    [apply stay_effect | apply push_effect].
Qed.

Lemma ExtractStunMessage_effect (s : State) : frame_effect s (ExtractStunMessage s).
Proof.
  unfold ExtractStunMessage.
  destruct (StunMessage_ParseHeader (_buffer s));
    [apply push_effect | apply stay_effect | apply stay_effect].
Qed.

Lemma ExtractChannelMessage_effect (s : State) : frame_effect s (ExtractChannelMessage s).
Proof.
  unfold ExtractChannelMessage.
  destruct (ChannelDataMessage_LoadHeader (_buffer s));
    [apply push_effect | apply stay_effect | apply stay_effect].
Qed.

(** *** What the loops and [ParseData] do to the connection type and the queue *)

Lemma extends_refl (s : State) : extends s s.
Proof. exists []. symmetry. apply app_nil_r. Qed.

Lemma extends_trans (s1 s2 s3 : State) : extends s1 s2 -> extends s2 s3 -> extends s1 s3.
Proof.
  intros [n1 H1] [n2 H2]. exists (n1 ++ n2).
  rewrite H2, H1. symmetry. apply app_assoc.
Qed.

Lemma rfc4571_loop_effect (fuel : nat) :
  forall s r s', rfc4571_loop fuel s = Some (r, s') ->
    _connection_type s' = _connection_type s /\ extends s s'.
Proof.
  induction fuel as [| fuel IH]; intros s r s' Hrun; simpl in Hrun; [discriminate |].
  destruct (GetLength (_buffer s) >=? RFC4571_HEADER_SIZE).
  - pose proof (ExtractRfc4571Frame_effect s) as (Hty & Hext & _).
    destruct (ExtractRfc4571Frame s) as [[ | | ] s1]; simpl in Hty, Hext.
    + apply IH in Hrun. destruct Hrun as [Hty' Hext'].
      split; [congruence | apply (extends_trans s s1 s'); assumption].
    + inversion Hrun; subst. split; assumption.
    + inversion Hrun; subst. split; assumption.
  - inversion Hrun; subst. split; [reflexivity | apply extends_refl].
Qed.

Lemma turn_loop_effect (fuel : nat) :
  forall s r s', turn_loop fuel s = Some (r, s') ->
    _connection_type s' = _connection_type s /\ extends s s'.
Proof.
  induction fuel as [| fuel IH]; intros s r s' Hrun; simpl in Hrun; [discriminate |].
  destruct (GetLength (_buffer s) >? MINIMUM_PACKET_HEADER_SIZE).
  - pose proof (ExtractStunMessage_effect s) as (HtyS & HextS & _).
    pose proof (ExtractChannelMessage_effect s) as (HtyC & HextC & _).
    destruct (FindPacketType (_buffer s)).
    + destruct (ExtractStunMessage s) as [[ | | ] s1]; simpl in HtyS, HextS.
      * apply IH in Hrun. destruct Hrun as [Hty' Hext'].
        split; [congruence | apply (extends_trans s s1 s'); assumption].
      * inversion Hrun; subst. split; assumption.
      * inversion Hrun; subst. split; assumption.
    + destruct (ExtractChannelMessage s) as [[ | | ] s1]; simpl in HtyC, HextC.
      * apply IH in Hrun. destruct Hrun as [Hty' Hext'].
        split; [congruence | apply (extends_trans s s1 s'); assumption].
      * inversion Hrun; subst. split; assumption.
      * inversion Hrun; subst. split; assumption.
    + inversion Hrun; subst. split; [reflexivity | apply extends_refl].
  - inversion Hrun; subst. split; [reflexivity | apply extends_refl].
Qed.

(** Detection leaves buffer and queue alone; it only ever moves the type away
    from [Unknown]. *)
Lemma DetectConnectionType_effect (s : State) :
  let out := DetectConnectionType s in
  _buffer (snd out) = _buffer s /\ _packets (snd out) = _packets s
  /\ (if fst out then _connection_type (snd out) <> Unknown else snd out = s).
Proof.
  unfold DetectConnectionType. cbv zeta.
  repeat match goal with
         | |- context [if ?c then _ else _] =>
             lazymatch c with
             | context [if _ then _ else _] => fail
             | _ => destruct c; simpl
             end
         end; repeat split; try reflexivity; discriminate.
Qed.

Lemma detect_phase_effect (s : State) :
  match detect_phase s with
  | inl s' => s' = s /\ _connection_type s = Unknown
  | inr s' =>
      _buffer s' = _buffer s /\ _packets s' = _packets s
      /\ _connection_type s' <> Unknown
      /\ (_connection_type s' = _connection_type s \/ _connection_type s = Unknown)
  end.
Proof.
  unfold detect_phase.
  destruct (_connection_type s) eqn:Hty.
  - pose proof (DetectConnectionType_effect s) as (Hb & Hp & Hm). cbv zeta in Hb, Hp, Hm.
    destruct (DetectConnectionType s) as [[ | ] s1]; simpl in Hb, Hp, Hm.
    + split; [assumption |]. split; [assumption |]. split; [assumption |].
      right. reflexivity.
    + subst s1.
      destruct (GetLength (_buffer s) <? RFC4571_HEADER_SIZE + 1).
      * split; reflexivity.
      * simpl. split; [reflexivity |]. split; [reflexivity |].
        split; [discriminate | right; reflexivity].
  - split; [reflexivity |]. split; [reflexivity |].
    split; [rewrite Hty; discriminate | left; exact Hty].
  - split; [reflexivity |]. split; [reflexivity |].
    split; [rewrite Hty; discriminate | left; exact Hty].
Qed.

Lemma ParseData_effect (s : State) (r : bool) (s' : State) :
  ParseData s = Some (r, s') ->
  (_connection_type s' = _connection_type s \/ _connection_type s = Unknown)
  /\ extends s s'.
Proof.
  unfold ParseData. intros Hrun.
  pose proof (detect_phase_effect s) as Hd.
  destruct (detect_phase s) as [s1 | s1].
  - destruct Hd as [-> _]. inversion Hrun; subst.
    split; [left; reflexivity | apply extends_refl].
  - destruct Hd as (_ & Hp & _ & Hm).
    assert (Hloop : _connection_type s' = _connection_type s1 /\ extends s1 s').
    { destruct (_connection_type s1) eqn:Hty1; rewrite <- Hty1;
        first [ eapply rfc4571_loop_effect; eassumption
              | eapply turn_loop_effect; eassumption ]. }
    destruct Hloop as [Hty [new Hnew]].
    split.
    + destruct Hm as [Hm | Hm]; [left; congruence | right; assumption].
    + exists new. rewrite Hnew, Hp. reflexivity.
Qed.

Lemma AppendData_effect (s : State) (data : list byte) (r : bool) (s' : State) :
  AppendData s data = Some (r, s') ->
  (_connection_type s' = _connection_type s \/ _connection_type s = Unknown)
  /\ extends s s'.
Proof.
  unfold AppendData. intros Hrun. apply ParseData_effect in Hrun. exact Hrun.
Qed.

(** *** Popping *)

Lemma drain_all (ps : list Packet) :
  forall n b t, (length ps < n)%nat -> drain n (mkState b ps t) = ps.
Proof.
  induction ps as [| p ps IH]; intros n b t Hn; destruct n as [| n];
    simpl in *; try lia; try reflexivity.
  f_equal. apply IH. lia.
Qed.

Lemma pop_all_packets (s : State) : pop_all s = _packets s.
Proof.
  destruct s as [b ps t]. unfold pop_all. simpl _packets.
  apply drain_all. lia.
Qed.

(** *** [ParseData] once the type is decided *)

Lemma detect_phase_decided (s : State) :
  _connection_type s <> Unknown -> detect_phase s = inr s.
Proof.
  unfold detect_phase. destruct (_connection_type s); [contradiction | reflexivity ..].
Qed.

Lemma ParseData_direct (s : State) :
  _connection_type s = IceTcpDirect -> ParseData s = rfc4571_loop (loop_fuel s) s.
Proof.
  intros Hty. unfold ParseData.
  rewrite detect_phase_decided by (rewrite Hty; discriminate).
  rewrite Hty. reflexivity.
Qed.

Lemma ParseData_turn (s : State) :
  _connection_type s = TurnRelay -> ParseData s = turn_loop (loop_fuel s) s.
Proof.
  intros Hty. unfold ParseData.
  rewrite detect_phase_decided by (rewrite Hty; discriminate).
  rewrite Hty. reflexivity.
Qed.

(** *** Claims about the ICE-TCP direct extractor *)

(** C4.  In IceTcpDirect mode, when the buffer holds at least [2 + L] bytes,
    [L] being the big-endian reading of its first two bytes, and [20 <= L],
    [ExtractRfc4571Frame] succeeds, appends to the queue one packet whose
    payload is exactly the [L] bytes [buffer[2 .. 2+L]] (the length prefix
    dropped) with the type [FindPacketType] gives that payload, and removes
    exactly the first [2 + L] bytes from the buffer. *)
Theorem ExtractRfc4571Frame_extracts (s : State) (L : Z) :
  _connection_type s = IceTcpDirect ->
  L = 256 * at_ (_buffer s) 0 + at_ (_buffer s) 1 ->
  20 <= L ->
  2 + L <= GetLength (_buffer s) ->
  let payload := firstn (Z.to_nat L) (skipn 2 (_buffer s)) in
  ExtractRfc4571Frame s =
    (SUCCESS,
     mkState (skipn (Z.to_nat (2 + L)) (_buffer s))
             (_packets s ++ [mkPacket (FindPacketType payload) payload])
             IceTcpDirect)
  /\ length payload = Z.to_nat L
  /\ _buffer s = firstn 2 (_buffer s) ++ payload ++ skipn (Z.to_nat (2 + L)) (_buffer s).
Proof.
  intros Hty HL Hmin Hlen payload.
  assert (Hfl : frame_length_of (_buffer s) = L)
    by (rewrite frame_length_of_be; symmetry; exact HL).
  pose proof (frame_length_of_range (_buffer s)) as Hrange.
  split; [| split].
  - unfold ExtractRfc4571Frame, push, Subdata, Subdata_from, RFC4571_HEADER_SIZE.
    rewrite Hfl, Hty.
    replace (GetLength (_buffer s) <? 2) with false by (symmetry; apply Z.ltb_ge; lia).
    replace (L <? 20) with false by (symmetry; apply Z.ltb_ge; lia).
    replace (L >? 65535) with false by (symmetry; rewrite Z.gtb_ltb; apply Z.ltb_ge; lia).
    replace (GetLength (_buffer s) <? 2 + L) with false by (symmetry; apply Z.ltb_ge; lia).
    reflexivity.
  - unfold payload. rewrite length_firstn, length_skipn.
    unfold GetLength in Hlen. lia.
  - unfold payload.
    replace (Z.to_nat (2 + L)) with (Z.to_nat L + 2)%nat by lia.
    rewrite <- (skipn_skipn (Z.to_nat L) 2 (_buffer s)).
    rewrite (firstn_skipn (Z.to_nat L) (skipn 2 (_buffer s))).
    symmetry. apply firstn_skipn.
Qed.

Lemma rfc4571_loop_invalid (fuel : nat) (st : State) :
  2 <= GetLength (_buffer st) ->
  frame_length_of (_buffer st) < 20 ->
  ExtractRfc4571Frame st = (FAILED, st)
  /\ rfc4571_loop (S fuel) st = Some (false, st).
Proof.
  intros Hlen Hbad.
  assert (Hex : ExtractRfc4571Frame st = (FAILED, st)).
  { unfold ExtractRfc4571Frame, RFC4571_HEADER_SIZE.
    replace (GetLength (_buffer st) <? 2) with false by (symmetry; apply Z.ltb_ge; lia).
    replace (frame_length_of (_buffer st) <? 20) with true
      by (symmetry; apply Z.ltb_lt; lia).
    reflexivity. }
  split; [exact Hex |].
  simpl. unfold RFC4571_HEADER_SIZE.
  replace (GetLength (_buffer st) >=? 2) with true
    by (symmetry; rewrite Z.geb_leb; apply Z.leb_le; lia).
  rewrite Hex. reflexivity.
Qed.

Lemma rfc4571_loop_short (fuel : nat) (st : State) :
  2 <= GetLength (_buffer st) ->
  20 <= frame_length_of (_buffer st) ->
  GetLength (_buffer st) < 2 + frame_length_of (_buffer st) ->
  rfc4571_loop (S fuel) st = Some (true, st).
Proof.
  intros Hlen Hvalid Hshort.
  pose proof (frame_length_of_range (_buffer st)) as Hrange.
  assert (Hex : ExtractRfc4571Frame st = (NOT_ENOUGH_BUFFER, st)).
  { unfold ExtractRfc4571Frame, RFC4571_HEADER_SIZE.
    replace (GetLength (_buffer st) <? 2) with false by (symmetry; apply Z.ltb_ge; lia).
    replace (frame_length_of (_buffer st) <? 20) with false
      by (symmetry; apply Z.ltb_ge; lia).
    replace (frame_length_of (_buffer st) >? 65535) with false
      by (symmetry; rewrite Z.gtb_ltb; apply Z.ltb_ge; lia).
    replace (GetLength (_buffer st) <? 2 + frame_length_of (_buffer st)) with true
      by (symmetry; apply Z.ltb_lt; lia).
    reflexivity. }
  simpl. unfold RFC4571_HEADER_SIZE.
  replace (GetLength (_buffer st) >=? 2) with true
    by (symmetry; rewrite Z.geb_leb; apply Z.leb_le; lia).
  rewrite Hex. reflexivity.
Qed.

(** C5.  In IceTcpDirect mode: when the bytes buffered after an append are at
    least two and their big-endian length prefix [L] is below 20 (or above
    65535, which no 16-bit prefix is), [ExtractRfc4571Frame] answers FAILED
    and [AppendData] returns false, as does the loop whenever it comes to a
    buffer with these bytes; when [20 <= L] and fewer than [2 + L] bytes are
    buffered, [AppendData] returns true and keeps every byte. *)
Theorem rfc4571_invalid_length_is_fatal (s : State) (data : list byte) :
  _connection_type s = IceTcpDirect ->
  let b := _buffer s ++ data in
  let L := 256 * at_ b 0 + at_ b 1 in
  2 <= GetLength b ->
  (L < 20 \/ L > 65535 ->
     fst (ExtractRfc4571Frame (appended s data)) = FAILED
     /\ AppendData s data = Some (false, mkState b (_packets s) IceTcpDirect)
     /\ forall fuel st, _buffer st = b -> rfc4571_loop (S fuel) st = Some (false, st))
  /\ (20 <= L -> GetLength b < 2 + L ->
     AppendData s data = Some (true, mkState b (_packets s) IceTcpDirect)).
Proof.
  intros Hty b L Hlen.
  assert (Hfl : frame_length_of b = L) by apply frame_length_of_be.
  pose proof (frame_length_of_range b) as Hrange.
  assert (Hap : AppendData s data
                = rfc4571_loop (loop_fuel (appended s data)) (appended s data)).
  { unfold AppendData. apply (ParseData_direct (appended s data)). exact Hty. }
  assert (Hst : appended s data = mkState b (_packets s) IceTcpDirect)
    by (unfold appended; rewrite Hty; reflexivity).
  assert (Hbuf : _buffer (appended s data) = b) by reflexivity.
  split.
  - intros Hbad.
    assert (Hlt : frame_length_of b < 20) by lia.
    destruct (rfc4571_loop_invalid (length (_buffer (appended s data)))
                (appended s data)) as [Hex Hloop];
      [rewrite Hbuf; exact Hlen | rewrite Hbuf; exact Hlt |].
    split; [rewrite Hex; reflexivity |].
    split.
    + rewrite Hap. unfold loop_fuel. rewrite Hloop, Hst. reflexivity.
    + intros fuel st Hb. apply rfc4571_loop_invalid; rewrite Hb; assumption.
  - intros Hvalid Hshort.
    rewrite Hap. unfold loop_fuel.
    rewrite rfc4571_loop_short by (rewrite Hbuf, ?Hfl; assumption).
    rewrite Hst. reflexivity.
Qed.

(** *** Claims about TURN relay mode *)



(** *** The connection type over a run of operations *)

Lemma exec_mode (s : State) (o : Op) (s' : State) :
  is_override o = false ->
  exec s o = Some s' ->
  GetConnectionType s' = GetConnectionType s \/ GetConnectionType s = Unknown.
Proof.
  unfold GetConnectionType.
  intros Hov Hex. destruct o as [data | | | | | t]; simpl in Hex; try discriminate Hov.
  - destruct (AppendData s data) as [[r s1] |] eqn:Hap; [| discriminate].
    inversion Hex; subst. apply AppendData_effect in Hap. tauto.
  - inversion Hex; subst. left.
    unfold PopPacket. destruct (_packets s); reflexivity.
  - inversion Hex; subst. left. reflexivity.
  - inversion Hex; subst. left. reflexivity.
  - inversion Hex; subst. left. reflexivity.
Qed.

(** C3 (amended).  Over any run of operations other than
    [SetConnectionType], a connection type that is not [Unknown] stays what
    it is, and the type only ever changes away from [Unknown] (to
    [IceTcpDirect] or [TurnRelay], the two other values);
    [SetConnectionType] itself stores its argument whatever the type was. *)
Theorem mode_monotone_without_override (s : State) (ops : list Op) (s' : State) :
  forallb (fun o => negb (is_override o)) ops = true ->
  run s ops = Some s' ->
  (GetConnectionType s <> Unknown -> GetConnectionType s' = GetConnectionType s)
  /\ (GetConnectionType s' = GetConnectionType s \/ GetConnectionType s = Unknown)
  /\ (forall t, GetConnectionType (SetConnectionType s' t) = t).
Proof.
  intros Hops Hrun.
  assert (Hstep : GetConnectionType s' = GetConnectionType s \/ GetConnectionType s = Unknown).
  { revert s Hops Hrun. induction ops as [| o ops IH]; intros s Hops Hrun; simpl in Hrun.
    - inversion Hrun; subst. left. reflexivity.
    - simpl in Hops. apply andb_true_iff in Hops. destruct Hops as [Ho Hops].
      apply negb_true_iff in Ho.
      destruct (exec s o) as [s1 |] eqn:Hex; [| discriminate].
      pose proof (exec_mode s o s1 Ho Hex) as H1.
      pose proof (IH s1 Hops Hrun) as H2.
      destruct H1 as [H1 | H1]; [| right; exact H1].
      destruct H2 as [H2 | H2]; [left; congruence | right; congruence]. }
  split; [| split].
  - intros Hdecided. destruct Hstep as [H | H]; [exact H | contradiction].
  - exact Hstep.
  - intros t. reflexivity.
Qed.

(** *** Detection on a two-byte buffer *)

(** C2 has a demultiplexer in mode [Unknown] keep that mode while fewer
    than three bytes are buffered.  The code departs from it: fed the two
    bytes [00 44] (the length prefix of a 68-byte RFC 4571 frame), in one
    call or in two, a fresh demultiplexer does not wait for a third byte.
    [DetectConnectionType] passes its two-byte guard, skips the RFC 4571
    test, and decides [TurnRelay] from the first byte alone. *)
Theorem two_bytes_decide_TurnRelay :
  DetectConnectionType (mkState [x00; x44] [] Unknown)
    = (true, mkState [x00; x44] [] TurnRelay)
  /\ AppendData init [x00; x44] = Some (true, mkState [x00; x44] [] TurnRelay)
  /\ feed init [[x00]; [x44]] = Some ([true; true], mkState [x00; x44] [] TurnRelay).
Proof.
  repeat split.
Qed.

End DemuxFacts.

(** ** Part VIII.  The demultiplexer on concrete streams *)

Section DemuxRuns.
Import Demux Driver.

(** In TURN relay mode the first packet a call enqueues, if any, carries a
    prefix of the buffer the call started from. *)
Lemma turn_loop_first_packet {C : Collaborators} (fuel : nat) (s : State)
    (r : bool) (s' : State) :
  turn_loop fuel s = Some (r, s') ->
  _packets s' = _packets s
  \/ exists t n rest,
       _packets s' = _packets s ++ mkPacket t (firstn n (_buffer s)) :: rest.
Proof.
  destruct fuel as [| fuel]; simpl; [discriminate |].
  destruct (GetLength (_buffer s) >? MINIMUM_PACKET_HEADER_SIZE);
    [| intros H; inversion H; subst; left; reflexivity].
  destruct (FindPacketType (_buffer s));
    [| | intros H; inversion H; subst; left; reflexivity].
  - unfold ExtractStunMessage.
    destruct (StunMessage_ParseHeader (_buffer s)) as [m | |];
      [| intros H; inversion H; subst; left; reflexivity ..].
    intros Hrun. apply turn_loop_effect in Hrun. destruct Hrun as [_ [new Hnew]].
    right. exists STUN, (Z.to_nat (uint32 (DefaultHeaderLength + m))), new.
    rewrite Hnew. unfold push, Subdata. simpl. rewrite <- app_assoc. reflexivity.
  - unfold ExtractChannelMessage.
    destruct (ChannelDataMessage_LoadHeader (_buffer s)) as [m | |];
      [| intros H; inversion H; subst; left; reflexivity ..].
    intros Hrun. apply turn_loop_effect in Hrun. destruct Hrun as [_ [new Hnew]].
    right. exists TURN_CHANNEL_DATA, (Z.to_nat (uint32 m)), new.
    rewrite Hnew. unfold push, Subdata. simpl. rewrite <- app_assoc. reflexivity.
Qed.

(** C1 has the packets be the same however the bytes are cut into chunks,
    as long as no call fails.  The code departs from it: the 24 bytes of
    [Wire.send_indication] fed in one call are taken for an RFC 4571 frame
    (one packet, the 22 bytes after the length prefix); fed as the first two
    bytes and then the rest, the first call already decides [TurnRelay] from
    the two-byte buffer and the second call frames all 24 bytes as one STUN
    message.  No call fails in either run, and the packets differ.  Whatever
    the collaborators answer, the second run never ends with the queue of
    the first. *)
Theorem chunk_split_changes_packets :
  @feed Wire.collaborators init [Wire.send_indication]
    = Some ([true],
            mkState [] [mkPacket STUN (skipn 2 Wire.send_indication)] IceTcpDirect)
  /\ @feed Wire.collaborators init
       [firstn 2 Wire.send_indication; skipn 2 Wire.send_indication]
    = Some ([true; true],
            mkState [] [mkPacket STUN Wire.send_indication] TurnRelay)
  /\ forall (C : Collaborators) rs s1 rs' s2,
       feed init [Wire.send_indication] = Some (rs, s1) ->
       feed init [firstn 2 Wire.send_indication; skipn 2 Wire.send_indication]
         = Some (rs', s2) ->
       rs = [true] /\ _packets s1 <> _packets s2.
Proof.
  split; [vm_compute; reflexivity |].
  split; [vm_compute; reflexivity |].
  intros C rs s1 rs' s2 Hwhole Hsplit.
  assert (Hw : feed init [Wire.send_indication]
               = Some ([true],
                       mkState []
                         [mkPacket (FindPacketType (skipn 2 Wire.send_indication))
                                   (skipn 2 Wire.send_indication)]
                         IceTcpDirect)) by reflexivity.
  rewrite Hw in Hwhole. inversion Hwhole; subst. clear Hwhole Hw.
  split; [reflexivity |].
  cbn [feed] in Hsplit.
  assert (H1 : AppendData init (firstn 2 Wire.send_indication)
               = Some (true, mkState [x00; x16] [] TurnRelay)) by reflexivity.
  rewrite H1 in Hsplit. clear H1.
  destruct (AppendData (mkState [x00; x16] [] TurnRelay) (skipn 2 Wire.send_indication))
    as [[r s3] |] eqn:Hap; [| discriminate].
  inversion Hsplit; subst. clear Hsplit.
  unfold AppendData in Hap.
  rewrite ParseData_turn in Hap by reflexivity.
  apply turn_loop_first_packet in Hap. simpl _packets in *. simpl _buffer in Hap.
  intros Heq. destruct Hap as [Hnone | (t & n & rest & Hsome)].
  - rewrite Hnone in Heq. discriminate.
  - rewrite Hsome in Heq. simpl in Heq. inversion Heq as [[Hty Hdata Hrest]].
    destruct n as [| [| n]]; simpl in Hdata; discriminate.
Qed.

(** Closed side conditions of the concrete runs below. *)
Ltac by_eval :=
  vm_compute;
  first [ reflexivity | discriminate
        | let H := fresh in intro H; discriminate H ].

(** C3 as stated fails.  A demultiplexer that has detected [IceTcpDirect]
    from the bytes [00 14 00] reports [TurnRelay] after
    [SetConnectionType(TurnRelay)] and [Unknown] after
    [SetConnectionType(Unknown)]; and on a fresh one, before any byte is
    appended, [SetConnectionType(TurnRelay)] followed by
    [SetConnectionType(IceTcpDirect)] moves the type from one decided value
    to the other. *)
Lemma SetConnectionType_overrides_decided_mode :
  @run Wire.collaborators init [OpAppendData [x00; x14; x00]]
    = Some (mkState [x00; x14; x00] [] IceTcpDirect)
  /\ GetConnectionType (mkState [x00; x14; x00] [] IceTcpDirect) = IceTcpDirect
  /\ @run Wire.collaborators (mkState [x00; x14; x00] [] IceTcpDirect)
       [OpSetConnectionType TurnRelay]
     = Some (mkState [x00; x14; x00] [] TurnRelay)
  /\ GetConnectionType (mkState [x00; x14; x00] [] TurnRelay) = TurnRelay
  /\ @run Wire.collaborators (mkState [x00; x14; x00] [] IceTcpDirect)
       [OpSetConnectionType Unknown]
     = Some (mkState [x00; x14; x00] [] Unknown)
  /\ @run Wire.collaborators init [OpSetConnectionType TurnRelay]
     = Some (mkState [] [] TurnRelay)
  /\ @run Wire.collaborators init
       [OpSetConnectionType TurnRelay; OpSetConnectionType IceTcpDirect]
     = Some (mkState [] [] IceTcpDirect).
Proof.
  repeat split.
Qed.

(** The amended C3 on a run that appends, asks and pops after
    [IceTcpDirect] was detected. *)
Lemma mode_monotone_without_override_witness :
  @run Wire.collaborators (mkState [x00; x14; x00] [] IceTcpDirect)
    [OpAppendData (tl Wire.binding_request); OpIsAvailablePacket;
     OpPopPacket; OpGetConnectionType]
  = Some (mkState [] [] IceTcpDirect)
  /\ GetConnectionType (mkState [x00; x14; x00] [] IceTcpDirect) <> Unknown
  /\ GetConnectionType (mkState [] [] IceTcpDirect)
     = GetConnectionType (mkState [x00; x14; x00] [] IceTcpDirect).
Proof.
  assert (Hrun :
    @run Wire.collaborators (mkState [x00; x14; x00] [] IceTcpDirect)
      [OpAppendData (tl Wire.binding_request); OpIsAvailablePacket;
       OpPopPacket; OpGetConnectionType]
    = Some (mkState [] [] IceTcpDirect)) by (vm_compute; reflexivity).
  assert (Hdecided :
    GetConnectionType (mkState [x00; x14; x00] [] IceTcpDirect) <> Unknown)
    by discriminate.
  split; [exact Hrun |]. split; [exact Hdecided |].
  exact (proj1
    (@mode_monotone_without_override Wire.collaborators
       (mkState [x00; x14; x00] [] IceTcpDirect)
       [OpAppendData (tl Wire.binding_request); OpIsAvailablePacket;
        OpPopPacket; OpGetConnectionType]
       (mkState [] [] IceTcpDirect) eq_refl Hrun)
    Hdecided).
Defined.

(** C4 on the frame [00 14 | binding request] followed by one more byte. *)
Lemma ExtractRfc4571Frame_extracts_witness :
  @ExtractRfc4571Frame Wire.collaborators
     (mkState ([x00; x14] ++ Wire.binding_request ++ [xff]) [] IceTcpDirect)
  = (SUCCESS, mkState [xff] [mkPacket STUN Wire.binding_request] IceTcpDirect).
Proof.
  assert (H1 : 20 <= 20) by by_eval.
  assert (H2 : 2 + 20 <= GetLength (_buffer
                 (mkState ([x00; x14] ++ Wire.binding_request ++ [xff]) [] IceTcpDirect)))
    by by_eval.
  exact (proj1
    (@ExtractRfc4571Frame_extracts Wire.collaborators
       (mkState ([x00; x14] ++ Wire.binding_request ++ [xff]) [] IceTcpDirect)
       20 eq_refl eq_refl H1 H2)).
Defined.

(** C5 on the prefix [00 0A] (length 10) and on the prefix [00 14] with one
    byte of its 20-byte frame. *)
Lemma rfc4571_invalid_length_is_fatal_witness :
  @AppendData Wire.collaborators (mkState [] [] IceTcpDirect) [x00; x0a; x00]
    = Some (false, mkState [x00; x0a; x00] [] IceTcpDirect)
  /\ @AppendData Wire.collaborators (mkState [] [] IceTcpDirect) [x00; x14; x00]
    = Some (true, mkState [x00; x14; x00] [] IceTcpDirect).
Proof.
  assert (Hlen1 : 2 <= GetLength (_buffer (mkState [] [] IceTcpDirect) ++ [x00; x0a; x00]))
    by by_eval.
  assert (Hbad : 256 * at_ (_buffer (mkState [] [] IceTcpDirect) ++ [x00; x0a; x00]) 0
                 + at_ (_buffer (mkState [] [] IceTcpDirect) ++ [x00; x0a; x00]) 1 < 20)
    by by_eval.
  assert (Hlen2 : 2 <= GetLength (_buffer (mkState [] [] IceTcpDirect) ++ [x00; x14; x00]))
    by by_eval.
  assert (Hvalid : 20 <= 256 * at_ (_buffer (mkState [] [] IceTcpDirect) ++ [x00; x14; x00]) 0
                         + at_ (_buffer (mkState [] [] IceTcpDirect) ++ [x00; x14; x00]) 1)
    by by_eval.
  assert (Hshort : GetLength (_buffer (mkState [] [] IceTcpDirect) ++ [x00; x14; x00])
                   < 2 + (256 * at_ (_buffer (mkState [] [] IceTcpDirect) ++ [x00; x14; x00]) 0
                          + at_ (_buffer (mkState [] [] IceTcpDirect) ++ [x00; x14; x00]) 1))
    by by_eval.
  split.
  - exact (proj1 (proj2
      (proj1
         (@rfc4571_invalid_length_is_fatal Wire.collaborators
            (mkState [] [] IceTcpDirect) [x00; x0a; x00] eq_refl Hlen1)
         (or_introl Hbad)))).
  - exact (proj2
      (@rfc4571_invalid_length_is_fatal Wire.collaborators
         (mkState [] [] IceTcpDirect) [x00; x14; x00] eq_refl Hlen2)
      Hvalid Hshort).
Defined.


End DemuxRuns.

(** ** Part IX.  ICE-TCP direct streams: termination and chunking *)

Section DirectStream.
Import Demux Driver Framing.
Context {C : Collaborators}.

(** [ExtractRfc4571Frame] by cases on the buffer. *)
Lemma ExtractRfc4571Frame_cases (s : State) :
  ExtractRfc4571Frame s
  = if GetLength (_buffer s) <? 2 then (NOT_ENOUGH_BUFFER, s)
    else if frame_length_of (_buffer s) <? 20 then (FAILED, s)
    else if GetLength (_buffer s) <? 2 + frame_length_of (_buffer s)
      then (NOT_ENOUGH_BUFFER, s)
    else (SUCCESS,
          push s
            (mkPacket
               (FindPacketType (Subdata (_buffer s) 2 (frame_length_of (_buffer s))))
               (Subdata (_buffer s) 2 (frame_length_of (_buffer s))))
            (Subdata_from (_buffer s) (2 + frame_length_of (_buffer s)))).
Proof.
  unfold ExtractRfc4571Frame, RFC4571_HEADER_SIZE.
  pose proof (frame_length_of_range (_buffer s)) as Hrange.
  replace (frame_length_of (_buffer s) >? 65535) with false
    by (symmetry; rewrite Z.gtb_ltb; apply Z.ltb_ge; lia).
  rewrite orb_false_r. reflexivity.
Qed.

(** A successful extraction shortens the buffer. *)
Lemma ExtractRfc4571Frame_shrinks (s s' : State) :
  ExtractRfc4571Frame s = (SUCCESS, s') ->
  (length (_buffer s') < length (_buffer s))%nat.
Proof.
  rewrite ExtractRfc4571Frame_cases.
  destruct (GetLength (_buffer s) <? 2); [discriminate |].
  destruct (frame_length_of (_buffer s) <? 20) eqn:Hmin; [discriminate |].
  destruct (GetLength (_buffer s) <? 2 + frame_length_of (_buffer s)) eqn:Hlen;
    [discriminate |].
  intros H. apply (f_equal snd) in H. cbn [snd] in H. subst s'.
  unfold push, Subdata_from. cbn [_buffer].
  rewrite length_skipn.
  apply Z.ltb_ge in Hmin. apply Z.ltb_ge in Hlen. unfold GetLength in Hlen. lia.
Qed.

(** The direct loop ends within one iteration per buffered byte. *)
Lemma rfc4571_loop_total (fuel : nat) :
  forall s, (length (_buffer s) < fuel)%nat ->
    exists out, rfc4571_loop fuel s = Some out.
Proof.
  induction fuel as [| fuel IH]; intros s Hfuel; [lia |].
  simpl. destruct (GetLength (_buffer s) >=? RFC4571_HEADER_SIZE); [| eexists; reflexivity].
  destruct (ExtractRfc4571Frame s) as [[ | | ] s'] eqn:Hex;
    [| eexists; reflexivity | eexists; reflexivity].
  apply IH. apply ExtractRfc4571Frame_shrinks in Hex. lia.
Qed.

(** More fuel does not change a result. *)
Lemma rfc4571_loop_more_fuel (fuel : nat) :
  forall s out fuel', rfc4571_loop fuel s = Some out -> (fuel <= fuel')%nat ->
    rfc4571_loop fuel' s = Some out.
Proof.
  induction fuel as [| fuel IH]; intros s out fuel' Hrun Hle; [discriminate |].
  destruct fuel' as [| fuel']; [lia |].
  simpl in *. destruct (GetLength (_buffer s) >=? RFC4571_HEADER_SIZE); [| exact Hrun].
  destruct (ExtractRfc4571Frame s) as [[ | | ] s']; try exact Hrun.
  apply (IH s' out fuel' Hrun). lia.
Qed.

(** In IceTcpDirect mode [AppendData] always returns. *)
Lemma AppendData_direct_returns (s : State) (data : list byte) :
  _connection_type s = IceTcpDirect ->
  exists r s', AppendData s data = Some (r, s').
Proof.
  intros Hty. unfold AppendData.
  rewrite ParseData_direct by exact Hty.
  destruct (rfc4571_loop_total (loop_fuel (appended s data)) (appended s data))
    as [[r s'] Hrun]; [unfold loop_fuel; lia |].
  exists r, s'. exact Hrun.
Qed.

(** [ParseData] in IceTcpDirect mode, one iteration at a time. *)
Lemma ParseData_direct_step (s : State) :
  _connection_type s = IceTcpDirect ->
  ParseData s
  = if GetLength (_buffer s) >=? 2 then
      match ExtractRfc4571Frame s with
      | (SUCCESS, s') => ParseData s'
      | (NOT_ENOUGH_BUFFER, s') => Some (true, s')
      | (FAILED, s') => Some (false, s')
      end
    else Some (true, s).
Proof.
  intros Hty. rewrite (ParseData_direct s Hty). unfold loop_fuel. simpl.
  unfold RFC4571_HEADER_SIZE.
  destruct (GetLength (_buffer s) >=? 2); [| reflexivity].
  destruct (ExtractRfc4571Frame s) as [[ | | ] s'] eqn:Hex; try reflexivity.
  pose proof (ExtractRfc4571Frame_effect s) as (Hty' & _ & _).
  rewrite Hex in Hty'. simpl in Hty'.
  rewrite (ParseData_direct s') by congruence.
  destruct (rfc4571_loop_total (loop_fuel s') s') as [out Hrun];
    [unfold loop_fuel; lia |].
  rewrite Hrun.
  apply (rfc4571_loop_more_fuel _ _ _ _ Hrun).
  apply ExtractRfc4571Frame_shrinks in Hex. unfold loop_fuel. lia.
Qed.

Lemma frame_length_of_app (x b : list byte) :
  2 <= GetLength x -> frame_length_of (x ++ b) = frame_length_of x.
Proof.
  unfold GetLength, frame_length_of, at_. intros Hlen.
  rewrite !app_nth1 by lia. reflexivity.
Qed.

(** What stays in the buffer after a call that returned true is parsed, once
    more bytes follow, exactly as the whole buffer would have been. *)
Lemma ParseData_direct_resume (n : nat) :
  forall x p x' p' t' b,
    (length x <= n)%nat ->
    ParseData (mkState x p IceTcpDirect) = Some (true, mkState x' p' t') ->
    ParseData (mkState (x ++ b) p IceTcpDirect)
    = ParseData (mkState (x' ++ b) p' IceTcpDirect).
Proof.
  induction n as [| n IH]; intros x p x' p' t' b Hn Hrun.
  - destruct x; [| simpl in Hn; lia].
    rewrite ParseData_direct_step in Hrun by reflexivity.
    simpl in Hrun. inversion Hrun; subst. reflexivity.
  - rewrite ParseData_direct_step in Hrun by reflexivity.
    cbn [_buffer] in Hrun.
    destruct (GetLength x >=? 2) eqn:Hlen2;
      [| inversion Hrun; subst; reflexivity].
    rewrite Z.geb_leb in Hlen2. apply Z.leb_le in Hlen2.
    rewrite ExtractRfc4571Frame_cases in Hrun. cbn [_buffer] in Hrun.
    replace (GetLength x <? 2) with false in Hrun by (symmetry; apply Z.ltb_ge; lia).
    destruct (frame_length_of x <? 20) eqn:Hmin; [discriminate Hrun |].
    destruct (GetLength x <? 2 + frame_length_of x) eqn:Hlen;
      [inversion Hrun; subst; reflexivity |].
    apply Z.ltb_ge in Hmin. apply Z.ltb_ge in Hlen.
    rewrite (ParseData_direct_step (mkState (x ++ b) p IceTcpDirect)) by reflexivity.
    cbn [_buffer].
    pose proof (GetLength_nonneg b) as Hb.
    replace (GetLength (x ++ b) >=? 2) with true
      by (symmetry; rewrite Z.geb_leb; apply Z.leb_le; rewrite GetLength_app; lia).
    rewrite ExtractRfc4571Frame_cases. cbn [_buffer].
    rewrite (frame_length_of_app x b Hlen2).
    replace (GetLength (x ++ b) <? 2) with false
      by (symmetry; apply Z.ltb_ge; rewrite GetLength_app; lia).
    replace (frame_length_of x <? 20) with false by (symmetry; apply Z.ltb_ge; lia).
    replace (GetLength (x ++ b) <? 2 + frame_length_of x) with false
      by (symmetry; apply Z.ltb_ge; rewrite GetLength_app; lia).
    unfold push, Subdata, Subdata_from in *. cbn [_buffer _packets _connection_type] in *.
    unfold GetLength in Hlen, Hlen2.
    assert (Hpayload :
      firstn (Z.to_nat (frame_length_of x)) (skipn (Z.to_nat 2) (x ++ b))
      = firstn (Z.to_nat (frame_length_of x)) (skipn (Z.to_nat 2) x)).
    { rewrite skipn_app, firstn_app, length_skipn.
      replace (Z.to_nat (frame_length_of x) - (length x - Z.to_nat 2))%nat with 0%nat by lia.
      rewrite firstn_O, app_nil_r. reflexivity. }
    assert (Hrest :
      skipn (Z.to_nat (2 + frame_length_of x)) (x ++ b)
      = skipn (Z.to_nat (2 + frame_length_of x)) x ++ b).
    { rewrite skipn_app.
      replace (Z.to_nat (2 + frame_length_of x) - length x)%nat with 0%nat by lia.
      reflexivity. }
    rewrite Hpayload, Hrest.
    apply (IH _ _ x' p' t' b); [| exact Hrun].
    rewrite length_skipn. simpl in Hn. lia.
Qed.

(** Chunk invariance once the type is [IceTcpDirect]: after an [AppendData]
    that returned true, appending [b] gives what appending both chunks in
    one call gives: the same result, queue and buffer. *)
Lemma AppendData_direct_chunks (s : State) (a b : list byte) (s1 : State) :
  _connection_type s = IceTcpDirect ->
  AppendData s a = Some (true, s1) ->
  AppendData s1 b = AppendData s (a ++ b).
Proof.
  intros Hty Hrun.
  pose proof (AppendData_effect s a true s1 Hrun) as [Hty1 _].
  assert (Hs1 : _connection_type s1 = IceTcpDirect)
    by (destruct Hty1 as [H | H]; congruence).
  unfold AppendData in *. rewrite Hty in *. rewrite Hs1.
  destruct s1 as [x' p' t']. cbn [_buffer _packets _connection_type] in *.
  rewrite app_assoc. symmetry.
  apply (ParseData_direct_resume (length (_buffer s ++ a)) _ _ x' p' t' b);
    [lia | exact Hrun].
Qed.

Lemma feed_cons (s : State) (c : list byte) (chunks : list (list byte)) :
  feed s (c :: chunks)
  = match AppendData s c with
    | Some (r, s1) =>
        match feed s1 chunks with
        | Some (rs, s2) => Some (r :: rs, s2)
        | None => None
        end
    | None => None
    end.
Proof. reflexivity. Qed.

(** Fed in any number of chunks, none of which fails, an IceTcpDirect
    demultiplexer ends in the state one call with all the bytes ends in. *)
Lemma feed_direct_chunks (chunks : list (list byte)) :
  forall s c rs s',
    _connection_type s = IceTcpDirect ->
    feed s (c :: chunks) = Some (rs, s') ->
    forallb (fun r => r) rs = true ->
    AppendData s (concat (c :: chunks)) = Some (true, s').
Proof.
  induction chunks as [| c2 chunks IH]; intros s c rs s' Hty Hfeed Hok.
  - rewrite feed_cons in Hfeed.
    destruct (AppendData s c) as [[r s1] |] eqn:Hap; [| discriminate].
    simpl in Hfeed. inversion Hfeed; subst. simpl in Hok.
    rewrite andb_true_r in Hok. subst r.
    simpl. rewrite app_nil_r. exact Hap.
  - rewrite feed_cons in Hfeed.
    destruct (AppendData s c) as [[r s1] |] eqn:Hap; [| discriminate].
    destruct (feed s1 (c2 :: chunks)) as [[rs1 s2] |] eqn:Hrest; [| discriminate].
    inversion Hfeed; subst. simpl in Hok.
    apply andb_true_iff in Hok. destruct Hok as [Hr Hok]. subst r.
    pose proof (AppendData_effect s c true s1 Hap) as [Hty1 _].
    assert (Hs1 : _connection_type s1 = IceTcpDirect)
      by (destruct Hty1 as [H | H]; congruence).
    change (concat (c :: c2 :: chunks)) with (c ++ concat (c2 :: chunks)).
    rewrite <- (AppendData_direct_chunks s c (concat (c2 :: chunks)) s1 Hty Hap).
    apply (IH s1 c2 rs1 s' Hs1 Hrest Hok).
Qed.

(** *** The queue across a failed append *)

(** A successful extraction is a push. *)
Lemma iteration_direct_success (s : State) :
  (GetLength (_buffer s) >=? RFC4571_HEADER_SIZE) = true ->
  forall s1, ExtractRfc4571Frame s = (SUCCESS, s1) ->
    exists p b, s1 = push s p b /\ iteration IceTcpDirect s = Some (SUCCESS, push s p b).
Proof.
  intros Hguard s1 Hex. unfold iteration. rewrite Hguard, Hex.
  unfold ExtractRfc4571Frame in Hex. cbv zeta in Hex.
  destruct (GetLength (_buffer s) <? RFC4571_HEADER_SIZE); [discriminate |].
  destruct ((frame_length_of (_buffer s) <? 20) || (frame_length_of (_buffer s) >? 65535));
    [discriminate |].
  destruct (GetLength (_buffer s) <? RFC4571_HEADER_SIZE + frame_length_of (_buffer s));
    [discriminate |].
  apply (f_equal snd) in Hex. cbn [snd] in Hex. subst s1.
  eexists. eexists. split; reflexivity.
Qed.

(** The ICE-TCP direct loop pushes what its successful turns extract, and
    returns false only from a turn that fails. *)
Lemma rfc4571_loop_extracted (fuel : nat) :
  forall s r s',
    rfc4571_loop fuel s = Some (r, s') ->
    exists new,
      _packets s' = _packets s ++ new
      /\ extracted IceTcpDirect s new s'
      /\ (r = false -> iteration IceTcpDirect s' = Some (FAILED, s')).
Proof.
  induction fuel as [| fuel IH]; intros s r s' Hrun; cbn [rfc4571_loop] in Hrun;
    [discriminate |].
  destruct (GetLength (_buffer s) >=? RFC4571_HEADER_SIZE) eqn:Hguard.
  - destruct (ExtractRfc4571Frame s) as [[ | | ] s1] eqn:Hex.
    + destruct (iteration_direct_success s Hguard s1 Hex) as (p & b & -> & Hit).
      destruct (IH _ r s' Hrun) as (new & Hq & Hchain & Hfail).
      exists (p :: new). split; [| split].
      * rewrite Hq. cbn [push _packets]. rewrite <- app_assoc. reflexivity.
      * apply (extracted_one IceTcpDirect s p b new s' Hit Hchain).
      * exact Hfail.
    + pose proof (ExtractRfc4571Frame_effect s) as (_ & _ & Hsame).
      rewrite Hex in Hsame. cbn [fst snd] in Hsame.
      assert (s1 = s) by (apply Hsame; discriminate). subst s1.
      inversion Hrun; subst. exists []. rewrite app_nil_r.
      split; [reflexivity |]. split; [constructor | discriminate].
    + pose proof (ExtractRfc4571Frame_effect s) as (_ & _ & Hsame).
      rewrite Hex in Hsame. cbn [fst snd] in Hsame.
      assert (s1 = s) by (apply Hsame; discriminate). subst s1.
      inversion Hrun; subst. exists []. rewrite app_nil_r.
      split; [reflexivity |]. split; [constructor |].
      intros _. unfold iteration. rewrite Hguard, Hex. reflexivity.
  - inversion Hrun; subst. exists []. rewrite app_nil_r.
    split; [reflexivity |]. split; [constructor | discriminate].
Qed.

(** So does the TURN relay loop. *)
Lemma turn_loop_extracted (fuel : nat) :
  forall s r s',
    turn_loop fuel s = Some (r, s') ->
    exists new,
      _packets s' = _packets s ++ new
      /\ extracted TurnRelay s new s'
      /\ (r = false -> iteration TurnRelay s' = Some (FAILED, s')).
Proof.
  assert (Hstay : forall (s : State) (r : bool),
            (r = false -> iteration TurnRelay s = Some (FAILED, s)) ->
            exists new,
              _packets s = _packets s ++ new
              /\ extracted TurnRelay s new s
              /\ (r = false -> iteration TurnRelay s = Some (FAILED, s))).
  { intros s r Hfail. exists []. rewrite app_nil_r.
    split; [reflexivity |]. split; [constructor | exact Hfail]. }
  assert (Hmore : forall (s : State) (p : Packet) (b : list byte) (r : bool) (s' : State),
            iteration TurnRelay s = Some (SUCCESS, push s p b) ->
            (exists new,
               _packets s' = _packets (push s p b) ++ new
               /\ extracted TurnRelay (push s p b) new s'
               /\ (r = false -> iteration TurnRelay s' = Some (FAILED, s'))) ->
            exists new,
              _packets s' = _packets s ++ new
              /\ extracted TurnRelay s new s'
              /\ (r = false -> iteration TurnRelay s' = Some (FAILED, s'))).
  { intros s p b r s' Hit (new & Hq & Hchain & Hfail).
    exists (p :: new). split; [| split].
    - rewrite Hq. cbn [push _packets]. rewrite <- app_assoc. reflexivity.
    - apply (extracted_one TurnRelay s p b new s' Hit Hchain).
    - exact Hfail. }
  induction fuel as [| fuel IH]; intros s r s' Hrun; cbn [turn_loop] in Hrun;
    [discriminate |].
  destruct (GetLength (_buffer s) >? MINIMUM_PACKET_HEADER_SIZE) eqn:Hguard.
  - destruct (FindPacketType (_buffer s)) eqn:Hkind.
    + unfold ExtractStunMessage in Hrun.
      destruct (StunMessage_ParseHeader (_buffer s)) as [m | |] eqn:Hparse.
      * eapply Hmore; [| apply (IH _ r s' Hrun)].
        unfold iteration, ExtractStunMessage. rewrite Hguard, Hkind, Hparse.
        reflexivity.
      * inversion Hrun; subst. apply Hstay. discriminate.
      * inversion Hrun; subst. apply Hstay. intros _.
        unfold iteration, ExtractStunMessage. rewrite Hguard, Hkind, Hparse.
        reflexivity.
    + unfold ExtractChannelMessage in Hrun.
      destruct (ChannelDataMessage_LoadHeader (_buffer s)) as [n | |] eqn:Hparse.
      * eapply Hmore; [| apply (IH _ r s' Hrun)].
        unfold iteration, ExtractChannelMessage. rewrite Hguard, Hkind, Hparse.
        reflexivity.
      * inversion Hrun; subst. apply Hstay. discriminate.
      * inversion Hrun; subst. apply Hstay. intros _.
        unfold iteration, ExtractChannelMessage. rewrite Hguard, Hkind, Hparse.
        reflexivity.
    + inversion Hrun; subst. apply Hstay. intros _.
      unfold iteration. rewrite Hguard, Hkind. reflexivity.
  - inversion Hrun; subst. apply Hstay. discriminate.
Qed.

(** A call that returns false has run the loop of the type it leaves, from
    the appended buffer, up to a turn that failed. *)
Lemma AppendData_failed_extracted (s : State) (data : list byte) (s' : State) :
  AppendData s data = Some (false, s') ->
  exists new,
    _packets s' = _packets s ++ new
    /\ extracted (_connection_type s')
         (SetConnectionType (appended s data) (_connection_type s')) new s'
    /\ iteration (_connection_type s') s' = Some (FAILED, s').
Proof.
  unfold AppendData, ParseData. fold (appended s data). intros Hrun.
  pose proof (detect_phase_effect (appended s data)) as Hd.
  destruct (detect_phase (appended s data)) as [s1 | s1]; [discriminate |].
  destruct Hd as (Hb & Hp & Hdecided & _).
  assert (Hs1 : s1 = SetConnectionType (appended s data) (_connection_type s1)).
  { destruct s1 as [b1 p1 t1]. cbn [_buffer _packets _connection_type] in *.
    subst. reflexivity. }
  destruct (_connection_type s1) eqn:Hty1; [contradiction | |].
  - pose proof (turn_loop_effect _ _ _ _ Hrun) as [Hkeep _].
    destruct (turn_loop_extracted _ _ _ _ Hrun) as (new & Hq & Hchain & Hfail).
    rewrite Hkeep, Hty1, <- Hs1.
    exists new. split; [rewrite Hq, Hp; reflexivity |].
    split; [exact Hchain | apply Hfail; reflexivity].
  - pose proof (rfc4571_loop_effect _ _ _ _ Hrun) as [Hkeep _].
    destruct (rfc4571_loop_extracted _ _ _ _ Hrun) as (new & Hq & Hchain & Hfail).
    rewrite Hkeep, Hty1, <- Hs1.
    exists new. split; [rewrite Hq, Hp; reflexivity |].
    split; [exact Hchain | apply Hfail; reflexivity].
Qed.

(** C10.  When [AppendData] returns false, in whatever mode, the queue it
    leaves is the queue it found followed by the packets this very call
    extracted before it failed, in the order it extracted them: starting
    from the appended buffer, every turn of the loop but the last succeeded
    and pushed one packet, the last turn failed, and all the packets pushed
    are in the queue.  Nothing enqueued earlier is removed or reordered, and
    popping afterwards returns the old packets and then the new ones.  In
    IceTcpDirect mode, moreover, whatever a call with a prefix [a] of the
    data would have enqueued is in the queue the failed call leaves. *)
Theorem failed_append_keeps_queue (s : State) (data : list byte) (s' : State) :
  AppendData s data = Some (false, s') ->
  (exists new,
     _packets s' = _packets s ++ new
     /\ pop_all s' = _packets s ++ new
     /\ extracted (_connection_type s')
          (SetConnectionType (appended s data) (_connection_type s')) new s'
     /\ iteration (_connection_type s') s' = Some (FAILED, s'))
  /\ (forall a b s1,
        _connection_type s = IceTcpDirect ->
        data = a ++ b ->
        AppendData s a = Some (true, s1) ->
        exists more, _packets s' = _packets s1 ++ more).
Proof.
  intros Hrun. split.
  - destruct (AppendData_failed_extracted s data s' Hrun) as (new & Hq & Hchain & Hfail).
    exists new. split; [exact Hq |].
    split; [rewrite pop_all_packets; exact Hq |].
    split; [exact Hchain | exact Hfail].
  - intros a b s1 Hty Hdata Hprefix. subst data.
    rewrite <- (AppendData_direct_chunks s a b s1 Hty Hprefix) in Hrun.
    apply AppendData_effect in Hrun. destruct Hrun as [_ Hext]. exact Hext.
Qed.

End DirectStream.

Section DirectRuns.
Import Demux Driver Framing.

(** C10 on a queue that holds one packet, in both modes.  In IceTcpDirect
    mode a complete 20-byte frame is followed by the invalid length prefix
    [00 0A]; in TurnRelay mode a binding request is followed by five bytes
    [FF] that are neither STUN nor Channel Data.  Either call fails after it
    has enqueued the binding request, which stays behind the packet that was
    waiting. *)
Lemma failed_append_keeps_queue_witness :
  (@AppendData Wire.collaborators
     (mkState [] [mkPacket TURN_CHANNEL_DATA [x40; x00; x00; x00]] IceTcpDirect)
     ([x00; x14] ++ Wire.binding_request ++ [x00; x0a])
   = Some (false,
           mkState [x00; x0a]
             [mkPacket TURN_CHANNEL_DATA [x40; x00; x00; x00];
              mkPacket STUN Wire.binding_request]
             IceTcpDirect)
   /\ exists new,
        [mkPacket TURN_CHANNEL_DATA [x40; x00; x00; x00];
         mkPacket STUN Wire.binding_request]
        = [mkPacket TURN_CHANNEL_DATA [x40; x00; x00; x00]] ++ new
        /\ pop_all
             (mkState [x00; x0a]
                [mkPacket TURN_CHANNEL_DATA [x40; x00; x00; x00];
                 mkPacket STUN Wire.binding_request]
                IceTcpDirect)
           = [mkPacket TURN_CHANNEL_DATA [x40; x00; x00; x00]] ++ new
        /\ @extracted Wire.collaborators IceTcpDirect
             (mkState ([x00; x14] ++ Wire.binding_request ++ [x00; x0a])
                [mkPacket TURN_CHANNEL_DATA [x40; x00; x00; x00]] IceTcpDirect)
             new
             (mkState [x00; x0a]
                [mkPacket TURN_CHANNEL_DATA [x40; x00; x00; x00];
                 mkPacket STUN Wire.binding_request]
                IceTcpDirect)
        /\ @iteration Wire.collaborators IceTcpDirect
             (mkState [x00; x0a]
                [mkPacket TURN_CHANNEL_DATA [x40; x00; x00; x00];
                 mkPacket STUN Wire.binding_request]
                IceTcpDirect)
           = Some (FAILED,
                   mkState [x00; x0a]
                     [mkPacket TURN_CHANNEL_DATA [x40; x00; x00; x00];
                      mkPacket STUN Wire.binding_request]
                     IceTcpDirect))
  /\ (@AppendData Wire.collaborators
        (mkState [] [mkPacket TURN_CHANNEL_DATA [x40; x00; x00; x00]] TurnRelay)
        (Wire.binding_request ++ [xff; xff; xff; xff; xff])
      = Some (false,
              mkState [xff; xff; xff; xff; xff]
                [mkPacket TURN_CHANNEL_DATA [x40; x00; x00; x00];
                 mkPacket STUN Wire.binding_request]
                TurnRelay)
      /\ exists new,
           [mkPacket TURN_CHANNEL_DATA [x40; x00; x00; x00];
            mkPacket STUN Wire.binding_request]
           = [mkPacket TURN_CHANNEL_DATA [x40; x00; x00; x00]] ++ new
           /\ pop_all
                (mkState [xff; xff; xff; xff; xff]
                   [mkPacket TURN_CHANNEL_DATA [x40; x00; x00; x00];
                    mkPacket STUN Wire.binding_request]
                   TurnRelay)
              = [mkPacket TURN_CHANNEL_DATA [x40; x00; x00; x00]] ++ new
           /\ @extracted Wire.collaborators TurnRelay
                (mkState (Wire.binding_request ++ [xff; xff; xff; xff; xff])
                   [mkPacket TURN_CHANNEL_DATA [x40; x00; x00; x00]] TurnRelay)
                new
                (mkState [xff; xff; xff; xff; xff]
                   [mkPacket TURN_CHANNEL_DATA [x40; x00; x00; x00];
                    mkPacket STUN Wire.binding_request]
                   TurnRelay)
           /\ @iteration Wire.collaborators TurnRelay
                (mkState [xff; xff; xff; xff; xff]
                   [mkPacket TURN_CHANNEL_DATA [x40; x00; x00; x00];
                    mkPacket STUN Wire.binding_request]
                   TurnRelay)
              = Some (FAILED,
                      mkState [xff; xff; xff; xff; xff]
                        [mkPacket TURN_CHANNEL_DATA [x40; x00; x00; x00];
                         mkPacket STUN Wire.binding_request]
                        TurnRelay)).
Proof.
  assert (Hdirect :
    @AppendData Wire.collaborators
      (mkState [] [mkPacket TURN_CHANNEL_DATA [x40; x00; x00; x00]] IceTcpDirect)
      ([x00; x14] ++ Wire.binding_request ++ [x00; x0a])
    = Some (false,
            mkState [x00; x0a]
              [mkPacket TURN_CHANNEL_DATA [x40; x00; x00; x00];
               mkPacket STUN Wire.binding_request]
              IceTcpDirect)) by (vm_compute; reflexivity).
  assert (Hturn :
    @AppendData Wire.collaborators
      (mkState [] [mkPacket TURN_CHANNEL_DATA [x40; x00; x00; x00]] TurnRelay)
      (Wire.binding_request ++ [xff; xff; xff; xff; xff])
    = Some (false,
            mkState [xff; xff; xff; xff; xff]
              [mkPacket TURN_CHANNEL_DATA [x40; x00; x00; x00];
               mkPacket STUN Wire.binding_request]
              TurnRelay)) by (vm_compute; reflexivity).
  split; (split; [assumption |]).
  - exact (proj1 (@failed_append_keeps_queue Wire.collaborators _ _ _ Hdirect)).
  - exact (proj1 (@failed_append_keeps_queue Wire.collaborators _ _ _ Hturn)).
Defined.

End DirectRuns.

(** ** Part X.  Detection by buffer length, and termination in every mode *)

Section Detection.
Import Demux Driver.

(** Below two bytes nothing is decided. *)
Lemma detect_phase_below_two (s : State) :
  _connection_type s = Unknown -> GetLength (_buffer s) < 2 ->
  detect_phase s = inl s.
Proof.
  intros Hty Hlen. unfold detect_phase, DetectConnectionType, RFC4571_HEADER_SIZE.
  rewrite Hty.
  replace (GetLength (_buffer s) <? 2) with true by (symmetry; apply Z.ltb_lt; lia).
  replace (GetLength (_buffer s) <? 2 + 1) with true by (symmetry; apply Z.ltb_lt; lia).
  reflexivity.
Qed.

(** On exactly two bytes the first byte alone decides: a STUN or Channel
    Data first byte gives [TurnRelay] at once, any other waits. *)
Lemma detect_phase_two_bytes (s : State) :
  _connection_type s = Unknown -> GetLength (_buffer s) = 2 ->
  detect_phase s
  = if (at_ (_buffer s) 0 <=? 3)
       || ((64 <=? at_ (_buffer s) 0) && (at_ (_buffer s) 0 <=? 79))
    then inr (SetConnectionType s TurnRelay)
    else inl s.
Proof.
  intros Hty Hlen. unfold detect_phase, DetectConnectionType, RFC4571_HEADER_SIZE.
  rewrite Hty, Hlen. cbn [Z.ltb Z.geb Z.add Z.compare Pos.compare Pos.compare_cont Pos.add].
  pose proof (at_range (_buffer s) 0) as H0.
  replace (at_ (_buffer s) 0 >=? 0) with true
    by (symmetry; rewrite Z.geb_leb; apply Z.leb_le; lia).
  rewrite !Z.geb_leb. cbn [andb].
  destruct (at_ (_buffer s) 0 <=? 3); [reflexivity |].
  destruct ((64 <=? at_ (_buffer s) 0) && (at_ (_buffer s) 0 <=? 79));
    [reflexivity |].
  cbn [orb]. rewrite Hlen. reflexivity.
Qed.

(** From three bytes on the type is always decided. *)
Lemma detect_phase_three_bytes (s : State) :
  _connection_type s = Unknown -> 3 <= GetLength (_buffer s) ->
  exists t, t <> Unknown /\ detect_phase s = inr (SetConnectionType s t).
Proof.
  intros Hty Hlen. unfold detect_phase. rewrite Hty.
  pose proof (DetectConnectionType_effect s) as (Hb & Hp & Hm). cbv zeta in Hb, Hp, Hm.
  destruct (DetectConnectionType s) as [[ | ] s1]; cbn [fst snd] in Hb, Hp, Hm.
  - exists (_connection_type s1). split; [exact Hm |].
    destruct s1 as [b1 p1 t1], s as [b p t]. cbn in Hb, Hp |- *. subst. reflexivity.
  - subst s1. unfold RFC4571_HEADER_SIZE.
    replace (GetLength (_buffer s) <? 2 + 1) with false by (symmetry; apply Z.ltb_ge; lia).
    exists IceTcpDirect. split; [discriminate | reflexivity].
Qed.

End Detection.

Section Termination.
Import Demux Driver.
Context {C : Collaborators}.

(** The decoders never report an empty packet. *)
Hypothesis stun_packet_nonempty :
  forall b m, StunMessage_ParseHeader b = Parsed m -> 0 < uint32 (DefaultHeaderLength + m).
Hypothesis channel_packet_nonempty :
  forall b n, ChannelDataMessage_LoadHeader b = Parsed n -> 0 < uint32 n.

Lemma trim_shrinks (d : list byte) (k : Z) :
  0 < k -> GetLength d > 0 ->
  (length (Subdata_from d k) < length d)%nat.
Proof.
  unfold Subdata_from, GetLength. intros Hk Hd. rewrite length_skipn. lia.
Qed.

Lemma turn_loop_total (fuel : nat) :
  forall s, (length (_buffer s) < fuel)%nat ->
    exists out, turn_loop fuel s = Some out.
Proof.
  induction fuel as [| fuel IH]; intros s Hfuel; [lia |].
  simpl. destruct (GetLength (_buffer s) >? MINIMUM_PACKET_HEADER_SIZE) eqn:Hlen;
    [| eexists; reflexivity].
  rewrite Z.gtb_ltb in Hlen. apply Z.ltb_lt in Hlen. unfold MINIMUM_PACKET_HEADER_SIZE in Hlen.
  destruct (FindPacketType (_buffer s)); [| | eexists; reflexivity].
  - unfold ExtractStunMessage.
    destruct (StunMessage_ParseHeader (_buffer s)) as [m | |] eqn:Hparse;
      [| eexists; reflexivity | eexists; reflexivity].
    apply IH. unfold push. cbn [_buffer].
    pose proof (trim_shrinks (_buffer s) _ (stun_packet_nonempty _ _ Hparse)). lia.
  - unfold ExtractChannelMessage.
    destruct (ChannelDataMessage_LoadHeader (_buffer s)) as [n | |] eqn:Hparse;
      [| eexists; reflexivity | eexists; reflexivity].
    apply IH. unfold push. cbn [_buffer].
    pose proof (trim_shrinks (_buffer s) _ (channel_packet_nonempty _ _ Hparse)). lia.
Qed.

(** With such decoders [AppendData] returns, whatever the connection type. *)
Lemma AppendData_returns (s : State) (data : list byte) :
  exists r s', AppendData s data = Some (r, s').
Proof.
  unfold AppendData, ParseData.
  destruct (detect_phase _) as [s1 | s1]; [exists true, s1; reflexivity |].
  assert (Hfuel : (length (_buffer s1) < loop_fuel s1)%nat) by (unfold loop_fuel; lia).
  destruct (_connection_type s1);
    [ destruct (turn_loop_total _ s1 Hfuel) as [[r s'] H]
    | destruct (turn_loop_total _ s1 Hfuel) as [[r s'] H]
    | destruct (rfc4571_loop_total _ s1 Hfuel) as [[r s'] H] ];
    exists r, s'; exact H.
Qed.

End Termination.

(** ** Part XI.  The extension attributes as a [std::map] *)

Module StdMapFacts.
Import StdMap.

(** *** The key order is a strict total order *)

Lemma key_lt_iff (a b : string) : key_lt a b = true <-> String_as_OT.lt a b.
Proof.
  unfold key_lt, String.ltb. rewrite <- String_as_OT.cmp_lt.
  unfold String_as_OT.cmp. destruct (String.compare a b); split; intros H;
    first [reflexivity | discriminate H].
Qed.

Lemma key_lt_irrefl (a : string) : key_lt a a = false.
Proof.
  destruct (key_lt a a) eqn:H; [| reflexivity].
  apply key_lt_iff in H. apply String_as_OT.lt_not_eq in H.
  exfalso. apply H. reflexivity.
Qed.

Lemma key_lt_trans (a b c : string) :
  key_lt a b = true -> key_lt b c = true -> key_lt a c = true.
Proof.
  rewrite !key_lt_iff. apply String_as_OT.lt_trans.
Qed.

Lemma key_lt_asym (a b : string) : key_lt a b = true -> key_lt b a = false.
Proof.
  intros Hab. destruct (key_lt b a) eqn:Hba; [| reflexivity].
  pose proof (key_lt_trans a b a Hab Hba) as H.
  rewrite key_lt_irrefl in H. discriminate H.
Qed.

Lemma key_lt_total (a b : string) :
  key_lt a b = false -> key_lt b a = false -> a = b.
Proof.
  unfold key_lt, String.ltb. intros Hab Hba.
  apply String_as_OT.cmp_eq. unfold String_as_OT.cmp.
  pose proof (String_as_OT.cmp_antisym b a) as Hanti. unfold String_as_OT.cmp in Hanti.
  destruct (String.compare a b); [reflexivity | discriminate Hab |].
  rewrite Hanti in Hba. simpl in Hba. discriminate Hba.
Qed.

(** *** Ascending lists *)

Lemma above_weaken (k k' : string) (m : t) :
  key_lt k k' = true -> above k' m = true -> above k m = true.
Proof.
  unfold above. intros Hk Hm. rewrite forallb_forall in *.
  intros e He. eapply key_lt_trans; [exact Hk | apply Hm; exact He].
Qed.

Lemma above_In (k : string) (m : t) (e : string * string) :
  above k m = true -> In e m -> key_lt k (fst e) = true.
Proof.
  unfold above. rewrite forallb_forall. intros H He. apply H. exact He.
Qed.

Lemma above_put (policy : DuplicatePolicy) (k0 k v : string) (m : t) :
  key_lt k0 k = true -> above k0 m = true -> above k0 (put policy k v m) = true.
Proof.
  intros Hk. induction m as [| [k' v'] m IH]; simpl; intros Hm.
  - rewrite Hk. reflexivity.
  - apply andb_true_iff in Hm. destruct Hm as [Hk' Hm].
    destruct (key_lt k k').
    + simpl. rewrite Hk, Hk'. exact Hm.
    + destruct (key_lt k' k).
      * simpl. rewrite Hk'. apply IH. exact Hm.
      * destruct policy; simpl; rewrite Hk'; exact Hm.
Qed.

Lemma ascending_put (policy : DuplicatePolicy) (k v : string) (m : t) :
  ascending m = true -> ascending (put policy k v m) = true.
Proof.
  induction m as [| [k' v'] m IH]; simpl; intros Hm; [reflexivity |].
  apply andb_true_iff in Hm. destruct Hm as [Hab Hm]. fold (above k' m) in Hab.
  destruct (key_lt k k') eqn:Hlt.
  - simpl. rewrite Hlt. fold (above k m). rewrite (above_weaken k k' m Hlt Hab).
    fold (above k' m). rewrite Hab. exact Hm.
  - destruct (key_lt k' k) eqn:Hgt.
    + simpl. fold (above k' (put policy k v m)).
      rewrite (above_put policy k' k v m Hgt Hab). apply IH. exact Hm.
    + destruct policy; simpl; fold (above k' m); rewrite Hab; exact Hm.
Qed.

Lemma ascending_NoDup (m : t) : ascending m = true -> NoDup (map fst m).
Proof.
  induction m as [| [k v] m IH]; simpl; intros Hm; [constructor |].
  apply andb_true_iff in Hm. destruct Hm as [Hab Hm].
  constructor; [| apply IH; exact Hm].
  intros Hin. apply in_map_iff in Hin. destruct Hin as [e [Hfst He]].
  fold (above k m) in Hab. pose proof (above_In k m e Hab He) as Hlt.
  rewrite Hfst, key_lt_irrefl in Hlt. discriminate Hlt.
Qed.

(** Two ascending lists with the same entries are the same list. *)
Lemma ascending_Permutation (m1 : t) :
  forall m2, ascending m1 = true -> ascending m2 = true ->
    Permutation m1 m2 -> m1 = m2.
Proof.
  induction m1 as [| [k1 v1] m1 IH]; intros m2 H1 H2 Hperm.
  - apply Permutation_nil in Hperm. symmetry. exact Hperm.
  - destruct m2 as [| [k2 v2] m2];
      [apply Permutation_sym, Permutation_nil in Hperm; discriminate Hperm |].
    simpl in H1, H2.
    apply andb_true_iff in H1. destruct H1 as [Hab1 H1].
    apply andb_true_iff in H2. destruct H2 as [Hab2 H2].
    fold (above k1 m1) in Hab1. fold (above k2 m2) in Hab2.
    assert (Hhead : (k1, v1) = (k2, v2)).
    { assert (In1 : In (k1, v1) ((k2, v2) :: m2))
        by (eapply Permutation_in; [exact Hperm | left; reflexivity]).
      assert (In2 : In (k2, v2) ((k1, v1) :: m1))
        by (eapply Permutation_in; [apply Permutation_sym; exact Hperm | left; reflexivity]).
      destruct In1 as [Heq | In1]; [symmetry; exact Heq |].
      destruct In2 as [Heq | In2]; [exact Heq |].
      pose proof (above_In k2 m2 _ Hab2 In1) as Hlt21.
      pose proof (above_In k1 m1 _ Hab1 In2) as Hlt12.
      simpl in Hlt21, Hlt12.
      rewrite (key_lt_asym _ _ Hlt12) in Hlt21. discriminate Hlt21. }
    inversion Hhead; subst. f_equal.
    apply IH; [exact H1 | exact H2 |].
    eapply Permutation_cons_inv. exact Hperm.
Qed.

(** *** Lookup after an insertion *)

Lemma find_above (k : string) (m : t) :
  above k m = true -> find k m = None.
Proof.
  destruct m as [| [k' v'] m]; simpl; [reflexivity |].
  intros H. apply andb_true_iff in H. destruct H as [H _]. simpl in H.
  rewrite H. reflexivity.
Qed.

Lemma find_put_same (policy : DuplicatePolicy) (k v : string) (m : t) :
  find k (put policy k v m)
  = match policy, find k m with
    | KeepFirst, Some old => Some old
    | _, _ => Some v
    end.
Proof.
  induction m as [| [k' v'] m IH]; simpl.
  - rewrite key_lt_irrefl. destruct policy; reflexivity.
  - destruct (key_lt k k') eqn:Hlt.
    + simpl. rewrite key_lt_irrefl. destruct policy; reflexivity.
    + destruct (key_lt k' k) eqn:Hgt.
      * simpl. rewrite Hlt, Hgt. exact IH.
      * destruct policy; simpl; rewrite Hlt, Hgt; reflexivity.
Qed.

Lemma find_put_other (policy : DuplicatePolicy) (k v k0 : string) (m : t) :
  k0 <> k -> ascending m = true ->
  find k0 (put policy k v m) = find k0 m.
Proof.
  intros Hne. induction m as [| [k' v'] m IH]; simpl; intros Hm.
  - destruct (key_lt k0 k) eqn:H1; [reflexivity |].
    destruct (key_lt k k0) eqn:H2; [reflexivity |].
    exfalso. apply Hne. apply key_lt_total; assumption.
  - apply andb_true_iff in Hm. destruct Hm as [Hab Hm]. fold (above k' m) in Hab.
    destruct (key_lt k k') eqn:Hlt.
    + simpl. destruct (key_lt k0 k) eqn:H1.
      * rewrite (key_lt_trans k0 k k' H1 Hlt). reflexivity.
      * destruct (key_lt k k0) eqn:H2; [reflexivity |].
        exfalso. apply Hne. apply key_lt_total; assumption.
    + destruct (key_lt k' k) eqn:Hgt.
      * simpl. destruct (key_lt k0 k'); [reflexivity |].
        destruct (key_lt k' k0); [apply IH; exact Hm | reflexivity].
      * assert (Hk : k = k') by (apply key_lt_total; assumption). subst k'.
        destruct policy; simpl; destruct (key_lt k0 k) eqn:H1; try reflexivity;
          destruct (key_lt k k0) eqn:H2; try reflexivity;
          exfalso; apply Hne; apply key_lt_total; assumption.
Qed.




(** *** Entries and lookups *)

Lemma find_In (m : t) (k v : string) :
  ascending m = true -> (In (k, v) m <-> find k m = Some v).
Proof.
  induction m as [| [k' v'] m IH]; simpl; intros Hm.
  - split; [contradiction | discriminate].
  - apply andb_true_iff in Hm. destruct Hm as [Hab Hm]. fold (above k' m) in Hab.
    split.
    + intros [Heq | Hin].
      * inversion Heq; subst. rewrite key_lt_irrefl. reflexivity.
      * pose proof (above_In k' m _ Hab Hin) as Hlt. simpl in Hlt.
        rewrite (key_lt_asym k' k Hlt), Hlt. apply IH; assumption.
    + destruct (key_lt k k') eqn:H1; [discriminate |].
      destruct (key_lt k' k) eqn:H2.
      * intros Hf. right. apply IH; assumption.
      * intros Hf. inversion Hf; subst. left.
        f_equal. apply key_lt_total; assumption.
Qed.

Lemma ascending_NoDup_entries (m : t) : ascending m = true -> NoDup m.
Proof.
  intros Hm. apply (NoDup_map_inv fst). apply ascending_NoDup. exact Hm.
Qed.

(** Two maps that answer every lookup alike are the same map. *)
Lemma ascending_ext (m1 m2 : t) :
  ascending m1 = true -> ascending m2 = true ->
  (forall k, find k m1 = find k m2) -> m1 = m2.
Proof.
  intros H1 H2 Hfind. apply ascending_Permutation; [exact H1 | exact H2 |].
  apply NoDup_Permutation; [apply ascending_NoDup_entries; exact H1
                           | apply ascending_NoDup_entries; exact H2 |].
  intros [k v]. rewrite (find_In m1 k v H1), (find_In m2 k v H2), Hfind.
  reflexivity.
Qed.

(** Pairs under different names can be stored in either order. *)
Lemma put_comm (policy : DuplicatePolicy) (k1 v1 k2 v2 : string) (m : t) :
  k1 <> k2 -> ascending m = true ->
  put policy k1 v1 (put policy k2 v2 m) = put policy k2 v2 (put policy k1 v1 m).
Proof.
  intros Hne Hm.
  apply ascending_ext; try (apply ascending_put; apply ascending_put; exact Hm).
  intros k.
  destruct (string_dec k k1) as [-> | Hk1]; [| destruct (string_dec k k2) as [-> | Hk2]].
  - rewrite find_put_same.
    rewrite (find_put_other policy k2 v2 k1 (put policy k1 v1 m)) by
      (try exact Hne; apply ascending_put; exact Hm).
    rewrite find_put_same.
    rewrite (find_put_other policy k2 v2 k1 m) by (try exact Hne; exact Hm).
    reflexivity.
  - rewrite (find_put_other policy k1 v1 k2 (put policy k2 v2 m)) by
      (try (intros E; apply Hne; symmetry; exact E); apply ascending_put; exact Hm).
    rewrite !find_put_same.
    rewrite (find_put_other policy k1 v1 k2 m) by
      (try (intros E; apply Hne; symmetry; exact E); exact Hm).
    reflexivity.
  - rewrite !find_put_other by
      (try assumption; try (apply ascending_put; exact Hm)).
    reflexivity.
Qed.

End StdMapFacts.

Section ExtensionAttributes.
Import StdMap StdMapFacts Candidate.
Local Open Scope string_scope.

(** C7 as stated fails.  No [std::map] holds a name twice: nothing that
    satisfies the container's invariant has both [tcptype active] and
    [tcptype passive].  And with either way of storing, adding [tcptype]
    first and [generation] second leaves a container that yields
    [generation] first, the very container that adding them the other way
    round leaves: the order of insertion is not kept. *)
Lemma extension_attributes_counterexample :
  ~ (exists m : StdMap.t,
       ascending m = true
       /\ In ("tcptype", "active") m /\ In ("tcptype", "passive") m)
  /\ AddExtensionAttributes KeepLast "tcptype" "passive"
       (AddExtensionAttributes KeepLast "tcptype" "active" [])
     = [("tcptype", "passive")]
  /\ AddExtensionAttributes KeepFirst "tcptype" "passive"
       (AddExtensionAttributes KeepFirst "tcptype" "active" [])
     = [("tcptype", "active")]
  /\ AddExtensionAttributes KeepLast "generation" "0"
       (AddExtensionAttributes KeepLast "tcptype" "passive" [])
     = [("generation", "0"); ("tcptype", "passive")]
  /\ AddExtensionAttributes KeepFirst "generation" "0"
       (AddExtensionAttributes KeepFirst "tcptype" "passive" [])
     = [("generation", "0"); ("tcptype", "passive")]
  /\ AddExtensionAttributes KeepLast "generation" "0"
       (AddExtensionAttributes KeepLast "tcptype" "passive" [])
     = AddExtensionAttributes KeepLast "tcptype" "passive"
         (AddExtensionAttributes KeepLast "generation" "0" []).
Proof.
  split; [| repeat split].
  intros [m (Hm & Ha & Hp)].
  apply (find_In m _ _ Hm) in Ha. apply (find_In m _ _ Hm) in Hp.
  rewrite Ha in Hp. discriminate Hp.
Qed.

(** C7 (amended).  The extension attributes are a map keyed by the attribute
    name.  After [AddExtensionAttributes] the container still yields its
    pairs in ascending name order and holds no name twice; the name added
    maps to the new value (or, when it was present and the container keeps
    the first value, to the old one) and every other name is untouched; two
    containers with the same pairs are equal, whatever the order the pairs
    were added in. *)
Theorem extension_attributes_keyed_map (policy : DuplicatePolicy)
    (key value : string) (m : StdMap.t) :
  ascending m = true ->
  let m' := AddExtensionAttributes policy key value m in
  ascending m' = true
  /\ NoDup (map fst m')
  /\ find key m'
     = match policy, find key m with
       | KeepFirst, Some old => Some old
       | _, _ => Some value
       end
  /\ (forall k, k <> key -> find k m' = find k m)
  /\ (forall m2, ascending m2 = true -> (Permutation m' m2 <-> m' = m2))
  /\ (forall key2 value2, key2 <> key ->
        AddExtensionAttributes policy key2 value2 m'
        = AddExtensionAttributes policy key value
            (AddExtensionAttributes policy key2 value2 m)).
Proof.
  intros Hm m'. unfold m', AddExtensionAttributes.
  pose proof (ascending_put policy key value m Hm) as Hm'.
  split; [exact Hm' |].
  split; [apply ascending_NoDup; exact Hm' |].
  split; [apply find_put_same |].
  split; [intros k Hk; apply find_put_other; assumption |].
  split.
  - intros m2 Hm2. split.
    + apply ascending_Permutation; assumption.
    + intros ->. apply Permutation_refl.
  - intros key2 value2 Hne. apply put_comm; assumption.
Qed.

(** C7 (amended) on the map that holds [generation 0], adding
    [tcptype passive]. *)
Lemma extension_attributes_keyed_map_witness :
  AddExtensionAttributes KeepLast "tcptype" "passive" [("generation", "0")]
    = [("generation", "0"); ("tcptype", "passive")]
  /\ ascending (AddExtensionAttributes KeepLast "tcptype" "passive" [("generation", "0")])
     = true.
Proof.
  split; [reflexivity |].
  exact (proj1 (extension_attributes_keyed_map KeepLast "tcptype" "passive"
                  [("generation", "0")] eq_refl)).
Defined.

(** *** The priority formula *)

(** C8.  For [type_preference] in [0, 126], [local_preference] in
    [0, 65535] and [component_id] in [1, 256], [CalculatePriority] is
    [tp * 2^24 + lp * 2^8 + (256 - cid)]: no 32-bit operation wraps, and
    the result is below [2^32]. *)
Theorem CalculatePriority_formula (tp lp cid : Z) :
  (0 <= tp <= 126)%Z -> (0 <= lp <= 65535)%Z -> (1 <= cid <= 256)%Z ->
  (CalculatePriority tp lp cid = tp * 2 ^ 24 + lp * 2 ^ 8 + (256 - cid)
   /\ uint32 (2 ^ 24 * tp) = 2 ^ 24 * tp
   /\ uint32 (2 ^ 8 * lp) = 2 ^ 8 * lp
   /\ uint32 (256 - cid) = 256 - cid
   /\ 0 <= tp * 2 ^ 24 + lp * 2 ^ 8 + (256 - cid) < 2 ^ 32)%Z.
Proof.
  intros Htp Hlp Hcid. unfold CalculatePriority, uint32.
  change (2 ^ 24)%Z with 16777216%Z. change (2 ^ 8)%Z with 256%Z.
  change (2 ^ 32)%Z with 4294967296%Z.
  rewrite (Z.mod_small (16777216 * tp)) by lia.
  rewrite (Z.mod_small (256 * lp)) by lia.
  rewrite (Z.mod_small (256 - cid)) by lia.
  rewrite (Z.mod_small (16777216 * tp + 256 * lp)) by lia.
  rewrite (Z.mod_small (16777216 * tp + 256 * lp + (256 - cid))) by lia.
  repeat split; lia.
Qed.

(** C8 at the largest admitted preferences and component 1. *)
Lemma CalculatePriority_formula_witness :
  CalculatePriority 126 65535 1 = 2130706431%Z.
Proof.
  assert (H1 : (0 <= 126 <= 126)%Z) by lia.
  assert (H2 : (0 <= 65535 <= 65535)%Z) by lia.
  assert (H3 : (1 <= 1 <= 256)%Z) by lia.
  exact (proj1 (CalculatePriority_formula 126 65535 1 H1 H2 H3)).
Defined.

End ExtensionAttributes.

(** ** Part XII.  The candidate line: parsing what was emitted *)

Module CandidateFacts.
Import StdMap StdMapFacts Candidate.
Local Open Scope string_scope.

(** *** Cutting and joining tokens *)


Lemma split_sp_nonempty (s : string) : split_sp s <> [].
Proof.
  destruct s as [| c s]; simpl; [discriminate |].
  destruct (is_space c); [discriminate |].
  destruct (split_sp s); discriminate.
Qed.





(** *** Numbers *)






(** *** Extension tokens *)








(** *** What every parsed candidate satisfies *)


(** *** Parsing an emitted line *)










End CandidateFacts.

(** ** Part XIII.  ICE-TCP direct: what a call consumes and what it leaves *)

Section DirectFraming.
Import Demux Driver Framing.
Context {C : Collaborators}.

Lemma byte_of_u8 (b : byte) : byte_of (u8 b) = b.
Proof.
  unfold byte_of. pose proof (u8_range b) as Hb.
  rewrite Z.mod_small by lia. unfold u8. rewrite N2Z.id, Byte.of_to_N.
  reflexivity.
Qed.

(** [ParseData] in IceTcpDirect mode goes the way of the relation. *)
Lemma ParseData_direct_run (n : nat) :
  forall s r s',
    (length (_buffer s) <= n)%nat ->
    _connection_type s = IceTcpDirect ->
    ParseData s = Some (r, s') ->
    rfc4571_run s r s'.
Proof.
  induction n as [| n IH]; intros s r s' Hn Hty Hrun;
    rewrite (ParseData_direct_step s Hty) in Hrun.
  - replace (GetLength (_buffer s) >=? 2) with false in Hrun
      by (symmetry; rewrite Z.geb_leb; apply Z.leb_gt; unfold GetLength; lia).
    inversion Hrun; subst. apply run_below_header. unfold GetLength. lia.
  - destruct (GetLength (_buffer s) >=? 2) eqn:Hlen2.
    + rewrite Z.geb_leb in Hlen2. apply Z.leb_le in Hlen2.
      rewrite ExtractRfc4571Frame_cases in Hrun.
      replace (GetLength (_buffer s) <? 2) with false in Hrun
        by (symmetry; apply Z.ltb_ge; lia).
      destruct (frame_length_of (_buffer s) <? 20) eqn:Hmin.
      * apply Z.ltb_lt in Hmin. inversion Hrun; subst.
        apply run_invalid_length; assumption.
      * apply Z.ltb_ge in Hmin.
        destruct (GetLength (_buffer s) <? 2 + frame_length_of (_buffer s)) eqn:Hlen.
        -- apply Z.ltb_lt in Hlen. inversion Hrun; subst.
           apply run_incomplete; assumption.
        -- apply Z.ltb_ge in Hlen.
           apply run_frame; [assumption | assumption |].
           apply IH; [| exact Hty | exact Hrun].
           unfold push, Subdata_from. cbn [_buffer]. rewrite length_skipn.
           unfold GetLength in Hlen. lia.
    + rewrite Z.geb_leb in Hlen2. apply Z.leb_gt in Hlen2.
      inversion Hrun; subst. apply run_below_header. exact Hlen2.
Qed.

Lemma AppendData_direct_run (s : State) (data : list byte) (r : bool) (s' : State) :
  _connection_type s = IceTcpDirect ->
  AppendData s data = Some (r, s') ->
  rfc4571_run (appended s data) r s'.
Proof.
  intros Hty Hrun.
  apply (ParseData_direct_run (length (_buffer (appended s data)))); auto.
Qed.

(** One frame off the front of the buffer. *)
Lemma frame_split (x : list byte) :
  20 <= frame_length_of x ->
  2 + frame_length_of x <= GetLength x ->
  x = rfc4571_frame (Subdata x 2 (frame_length_of x))
      ++ Subdata_from x (2 + frame_length_of x)
  /\ GetLength (Subdata x 2 (frame_length_of x)) = frame_length_of x.
Proof.
  intros Hmin Hlen.
  pose proof (frame_length_of_range x) as Hrange.
  assert (Hpay : GetLength (Subdata x 2 (frame_length_of x)) = frame_length_of x).
  { unfold Subdata, GetLength in *. rewrite length_firstn, length_skipn. lia. }
  split; [| exact Hpay].
  unfold rfc4571_frame. rewrite Hpay.
  destruct x as [| x0 [| x1 x]];
    [unfold GetLength in Hlen; cbn [length] in Hlen; lia
    | unfold GetLength in Hlen; cbn [length] in Hlen; lia |].
  rewrite frame_length_of_be in *. unfold at_ in *. cbn [nth] in *.
  pose proof (u8_range x0) as H0. pose proof (u8_range x1) as H1.
  set (L := 256 * u8 x0 + u8 x1) in *.
  assert (Hhigh : byte_of (L / 256) = x0).
  { replace (L / 256) with (u8 x0); [apply byte_of_u8 |].
    unfold L. rewrite Z.add_comm, Z.mul_comm, Z.div_add by lia.
    rewrite Z.div_small by lia. reflexivity. }
  assert (Hlow : byte_of L = x1).
  { transitivity (byte_of (u8 x1)); [| apply byte_of_u8].
    unfold byte_of, L.
    rewrite Z.add_comm, Z.mul_comm, Z.mod_add by lia. reflexivity. }
  rewrite Hhigh, Hlow.
  unfold Subdata, Subdata_from.
  change (Z.to_nat 2) with 2%nat.
  replace (Z.to_nat (2 + L)) with (S (S (Z.to_nat L))) by lia.
  cbn [skipn app]. rewrite firstn_skipn. reflexivity.
Qed.

(** Everything the loop does, read off a run. *)
Lemma rfc4571_run_spec (s : State) (r : bool) (s' : State) :
  rfc4571_run s r s' ->
  _connection_type s' = _connection_type s
  /\ (if r then awaiting_bytes (_buffer s') else stuck_on_length (_buffer s'))
  /\ exists new,
       _packets s' = _packets s ++ new
       /\ Forall direct_packet new
       /\ _buffer s = frames new ++ _buffer s'.
Proof.
  induction 1 as [s Hlen | s Hlen Hbad | s Hlen Hmin Hshort | s r s' Hmin Hlen Hrun IH].
  - split; [reflexivity |]. split; [left; exact Hlen |].
    exists []. rewrite app_nil_r. repeat split. constructor.
  - split; [reflexivity |].
    split; [split; [exact Hlen | rewrite <- frame_length_of_be; exact Hbad] |].
    exists []. rewrite app_nil_r. repeat split. constructor.
  - split; [reflexivity |].
    split; [right; rewrite <- frame_length_of_be; split; assumption |].
    exists []. rewrite app_nil_r. repeat split. constructor.
  - destruct IH as (Hty & Hpost & new & Hq & Hall & Hbuf).
    unfold push in *. cbn [_buffer _packets _connection_type] in *.
    destruct (frame_split (_buffer s) Hmin Hlen) as [Hsplit Hpay].
    pose proof (frame_length_of_range (_buffer s)) as Hrange.
    split; [exact Hty |]. split; [exact Hpost |].
    eexists (_ :: new).
    split; [rewrite Hq, <- app_assoc; reflexivity |].
    split.
    + constructor; [| exact Hall].
      split; cbn [_data _type]; [rewrite Hpay; lia | reflexivity].
    + unfold frames in *. cbn [flat_map _data]. rewrite <- app_assoc, <- Hbuf.
      exact Hsplit.
Qed.

(** *** What a call in IceTcpDirect mode guarantees *)

(** X1.  In IceTcpDirect mode no byte is lost, added or reordered: the bytes
    buffered before the call followed by the bytes appended are the RFC 4571
    frames of the packets the call enqueued, in order, followed by what the
    call leaves in the buffer.  This holds whether the call returns true or
    false. *)
Theorem direct_append_accounts_for_every_byte (s : State) (data : list byte)
    (r : bool) (s' : State) :
  _connection_type s = IceTcpDirect ->
  AppendData s data = Some (r, s') ->
  exists new,
    _packets s' = _packets s ++ new
    /\ _buffer s ++ data = frames new ++ _buffer s'.
Proof.
  intros Hty Hrun.
  destruct (rfc4571_run_spec _ _ _ (AppendData_direct_run s data r s' Hty Hrun))
    as (_ & _ & new & Hq & _ & Hbuf).
  exists new. split; [exact Hq | exact Hbuf].
Qed.

(** X2.  Every packet an IceTcpDirect call enqueues holds between 20 and
    65535 bytes and carries the label the classifier gives those bytes. *)
Theorem direct_append_enqueues_frames_only (s : State) (data : list byte)
    (r : bool) (s' : State) :
  _connection_type s = IceTcpDirect ->
  AppendData s data = Some (r, s') ->
  exists new,
    _packets s' = _packets s ++ new
    /\ Forall direct_packet new.
Proof.
  intros Hty Hrun.
  destruct (rfc4571_run_spec _ _ _ (AppendData_direct_run s data r s' Hty Hrun))
    as (_ & _ & new & Hq & Hall & _).
  exists new. split; [exact Hq | exact Hall].
Qed.

(** X3.  An IceTcpDirect call extracts every complete frame: when it returns
    true the buffer it leaves holds fewer than two bytes or a length of at
    least 20 with bytes still missing; when it returns false the buffer it
    leaves starts with a length below 20. *)
Theorem direct_append_leaves_no_complete_frame (s : State) (data : list byte)
    (r : bool) (s' : State) :
  _connection_type s = IceTcpDirect ->
  AppendData s data = Some (r, s') ->
  if r then awaiting_bytes (_buffer s') else stuck_on_length (_buffer s').
Proof.
  intros Hty Hrun.
  destruct (rfc4571_run_spec _ _ _ (AppendData_direct_run s data r s' Hty Hrun))
    as (_ & Hpost & _).
  exact Hpost.
Qed.

(** One complete frame at the front of a longer buffer is extracted as it is
    from the shorter one. *)
Lemma ParseData_direct_frame_app (x : list byte) (p : list Packet) (b : list byte) :
  20 <= frame_length_of x ->
  2 + frame_length_of x <= GetLength x ->
  ParseData (mkState (x ++ b) p IceTcpDirect)
  = ParseData
      (mkState (Subdata_from x (2 + frame_length_of x) ++ b)
         (p ++ [mkPacket (FindPacketType (Subdata x 2 (frame_length_of x)))
                         (Subdata x 2 (frame_length_of x))])
         IceTcpDirect).
Proof.
  intros Hmin Hlen.
  pose proof (GetLength_nonneg b) as Hb.
  assert (Hlen2 : 2 <= GetLength x) by lia.
  rewrite (ParseData_direct_step (mkState (x ++ b) p IceTcpDirect)) by reflexivity.
  cbn [_buffer].
  replace (GetLength (x ++ b) >=? 2) with true
    by (symmetry; rewrite Z.geb_leb; apply Z.leb_le; rewrite GetLength_app; lia).
  rewrite ExtractRfc4571Frame_cases. cbn [_buffer].
  rewrite (frame_length_of_app x b Hlen2).
  replace (GetLength (x ++ b) <? 2) with false
    by (symmetry; apply Z.ltb_ge; rewrite GetLength_app; lia).
  replace (frame_length_of x <? 20) with false by (symmetry; apply Z.ltb_ge; lia).
  replace (GetLength (x ++ b) <? 2 + frame_length_of x) with false
    by (symmetry; apply Z.ltb_ge; rewrite GetLength_app; lia).
  unfold push, Subdata, Subdata_from. cbn [_buffer _packets _connection_type].
  unfold GetLength in Hlen, Hlen2.
  assert (Hpayload :
    firstn (Z.to_nat (frame_length_of x)) (skipn (Z.to_nat 2) (x ++ b))
    = firstn (Z.to_nat (frame_length_of x)) (skipn (Z.to_nat 2) x)).
  { rewrite skipn_app, firstn_app, length_skipn.
    replace (Z.to_nat (frame_length_of x) - (length x - Z.to_nat 2))%nat with 0%nat by lia.
    rewrite firstn_O, app_nil_r. reflexivity. }
  assert (Hrest :
    skipn (Z.to_nat (2 + frame_length_of x)) (x ++ b)
    = skipn (Z.to_nat (2 + frame_length_of x)) x ++ b).
  { rewrite skipn_app.
    replace (Z.to_nat (2 + frame_length_of x) - length x)%nat with 0%nat by lia.
    reflexivity. }
  rewrite Hpayload, Hrest. reflexivity.
Qed.

(** A buffer that starts with a length below 20 fails, whatever follows. *)
Lemma ParseData_direct_stuck (x : list byte) (p : list Packet) (b : list byte) :
  2 <= GetLength x -> frame_length_of x < 20 ->
  ParseData (mkState (x ++ b) p IceTcpDirect)
  = Some (false, mkState (x ++ b) p IceTcpDirect).
Proof.
  intros Hlen Hbad. pose proof (GetLength_nonneg b) as Hb.
  rewrite ParseData_direct by reflexivity.
  unfold loop_fuel.
  apply rfc4571_loop_invalid; cbn [_buffer].
  - rewrite GetLength_app. lia.
  - rewrite (frame_length_of_app x b Hlen). exact Hbad.
Qed.

(** A run that fails fails in the same place when more bytes follow. *)
Lemma rfc4571_run_failed_resume (s : State) (r : bool) (s' : State) :
  rfc4571_run s r s' ->
  r = false ->
  forall b,
    ParseData (mkState (_buffer s ++ b) (_packets s) IceTcpDirect)
    = Some (false, mkState (_buffer s' ++ b) (_packets s') IceTcpDirect).
Proof.
  induction 1 as [s Hlen | s Hlen Hbad | s Hlen Hmin Hshort | s r s' Hmin Hlen Hrun IH];
    intros Hr b; try discriminate Hr.
  - apply ParseData_direct_stuck; assumption.
  - rewrite (ParseData_direct_frame_app (_buffer s) (_packets s) b Hmin Hlen).
    apply (IH Hr b).
Qed.

Lemma AppendData_direct_failed_again (s : State) (data : list byte) (s' : State) :
  _connection_type s = IceTcpDirect ->
  AppendData s data = Some (false, s') ->
  forall more,
    AppendData s' more
    = Some (false, mkState (_buffer s' ++ more) (_packets s') IceTcpDirect).
Proof.
  intros Hty Hrun more.
  destruct (rfc4571_run_spec _ _ _ (AppendData_direct_run s data false s' Hty Hrun))
    as (Hty' & [Hlen Hbad] & _).
  unfold AppendData. cbn [appended _connection_type] in Hty'.
  rewrite Hty', Hty.
  apply ParseData_direct_stuck; [exact Hlen |].
  rewrite frame_length_of_be. exact Hbad.
Qed.

(** X4.  A failure in IceTcpDirect mode is final: the call that returns false
    leaves the offending length at the front of the buffer, so every later
    call returns false as well, enqueues nothing and only lengthens the
    buffer. *)
Theorem direct_failure_is_final (s : State) (data : list byte) (s' : State) :
  _connection_type s = IceTcpDirect ->
  AppendData s data = Some (false, s') ->
  forall more,
    AppendData s' more
    = Some (false, mkState (_buffer s' ++ more) (_packets s') IceTcpDirect).
Proof.
  exact (AppendData_direct_failed_again s data s').
Qed.

(** Two calls, whatever the first returns, do what one call with both chunks
    does. *)
Lemma AppendData_direct_chunks_any (s : State) (a b : list byte) (r : bool) (s1 : State) :
  _connection_type s = IceTcpDirect ->
  AppendData s a = Some (r, s1) ->
  AppendData s1 b = AppendData s (a ++ b).
Proof.
  intros Hty Hrun. destruct r.
  - apply (AppendData_direct_chunks s a b s1 Hty Hrun).
  - rewrite (AppendData_direct_failed_again s a s1 Hty Hrun b).
    pose proof (rfc4571_run_failed_resume _ _ _
                  (AppendData_direct_run s a false s1 Hty Hrun) eq_refl b) as Hres.
    unfold AppendData. cbn [appended _buffer _packets] in Hres.
    rewrite Hty, app_assoc. symmetry. exact Hres.
Qed.

(** X5.  In IceTcpDirect mode the way the stream is cut into calls does not
    show: one call with all the bytes leaves the buffer, the queue and the
    type the chunked calls leave, and returns true exactly when every one of
    them did. *)
Theorem direct_chunking_is_invisible (chunks : list (list byte)) :
  forall (s : State) (c : list byte) (rs : list bool) (s' : State),
    _connection_type s = IceTcpDirect ->
    feed s (c :: chunks) = Some (rs, s') ->
    AppendData s (concat (c :: chunks)) = Some (forallb (fun r => r) rs, s').
Proof.
  induction chunks as [| c2 chunks IH]; intros s c rs s' Hty Hfeed.
  - rewrite feed_cons in Hfeed.
    destruct (AppendData s c) as [[r s1] |] eqn:Hap; [| discriminate].
    cbn [feed] in Hfeed. inversion Hfeed; subst.
    cbn [concat forallb]. rewrite app_nil_r, andb_true_r. exact Hap.
  - rewrite feed_cons in Hfeed.
    destruct (AppendData s c) as [[r s1] |] eqn:Hap; [| discriminate].
    destruct (feed s1 (c2 :: chunks)) as [[rs1 s2] |] eqn:Hrest; [| discriminate].
    inversion Hfeed; subst. clear Hfeed.
    pose proof (AppendData_effect s c r s1 Hap) as [Hty1 _].
    assert (Hs1 : _connection_type s1 = IceTcpDirect)
      by (destruct Hty1 as [E | E]; congruence).
    pose proof (IH s1 c2 rs1 s' Hs1 Hrest) as Hall.
    rewrite (AppendData_direct_chunks_any s c (concat (c2 :: chunks)) r s1 Hty Hap) in Hall.
    change (concat (c :: c2 :: chunks)) with (c ++ concat (c2 :: chunks)).
    rewrite Hall. cbn [forallb].
    destruct r; [reflexivity |].
    rewrite feed_cons in Hrest.
    rewrite (AppendData_direct_failed_again s c s1 Hty Hap c2) in Hrest.
    destruct (feed _ chunks) as [[rs2 s3] |]; [| discriminate].
    inversion Hrest; subst. reflexivity.
Qed.

Lemma frames_length (new : list Packet) :
  Forall direct_packet new ->
  22 * Z.of_nat (length new) <= GetLength (frames new).
Proof.
  induction 1 as [| p new [Hp _] _ IH].
  - unfold GetLength. simpl. lia.
  - change (frames (p :: new)) with (rfc4571_frame (_data p) ++ frames new).
    rewrite GetLength_app.
    assert (Hframe : GetLength (rfc4571_frame (_data p)) = 2 + GetLength (_data p)).
    { unfold rfc4571_frame, GetLength. cbn [length]. lia. }
    rewrite Hframe. cbn [length]. lia.
Qed.

(** X6.  In IceTcpDirect mode [AppendData] always returns, the loop ends on
    every input, and each packet it enqueues has used up at least 22 bytes of
    the stream. *)
Theorem direct_append_returns (s : State) (data : list byte) :
  _connection_type s = IceTcpDirect ->
  exists r s' new,
    AppendData s data = Some (r, s')
    /\ _packets s' = _packets s ++ new
    /\ 22 * Z.of_nat (length new) + GetLength (_buffer s')
       <= GetLength (_buffer s) + GetLength data.
Proof.
  intros Hty.
  destruct (AppendData_direct_returns s data Hty) as (r & s' & Hrun).
  destruct (rfc4571_run_spec _ _ _ (AppendData_direct_run s data r s' Hty Hrun))
    as (_ & _ & new & Hq & Hall & Hbuf).
  exists r, s', new. split; [exact Hrun |]. split; [exact Hq |].
  cbn [appended _buffer] in Hbuf.
  apply (f_equal GetLength) in Hbuf. rewrite !GetLength_app in Hbuf.
  pose proof (frames_length new Hall). lia.
Qed.

End DirectFraming.

(** Closed side conditions of the runs below. *)
Ltac run_closed :=
  vm_compute;
  first [ reflexivity | discriminate
        | let H := fresh in intro H; discriminate H ].

Section DirectFramingRuns.
Import Demux Driver Framing.

(** X1 on a buffer that already holds the length prefix [00 14], appended the
    20 bytes of a binding request and one more byte. *)
Lemma direct_append_accounts_for_every_byte_witness :
  exists new,
    [mkPacket STUN Wire.binding_request] = [] ++ new
    /\ [x00; x14] ++ (Wire.binding_request ++ [x00])
       = @frames new ++ [x00].
Proof.
  assert (Hty : _connection_type (mkState [x00; x14] [] IceTcpDirect) = IceTcpDirect)
    by reflexivity.
  assert (Hrun :
    @AppendData Wire.collaborators (mkState [x00; x14] [] IceTcpDirect)
      (Wire.binding_request ++ [x00])
    = Some (true, mkState [x00] [mkPacket STUN Wire.binding_request] IceTcpDirect))
    by run_closed.
  exact (@direct_append_accounts_for_every_byte Wire.collaborators
           (mkState [x00; x14] [] IceTcpDirect) (Wire.binding_request ++ [x00])
           true (mkState [x00] [mkPacket STUN Wire.binding_request] IceTcpDirect)
           Hty Hrun).
Defined.

(** X2 on two frames in one call, a binding request and a 24-byte Send
    indication. *)
Lemma direct_append_enqueues_frames_only_witness :
  exists new,
    [mkPacket STUN Wire.binding_request; mkPacket STUN Wire.send_indication]
    = [] ++ new
    /\ Forall (@direct_packet Wire.collaborators) new.
Proof.
  assert (Hty : _connection_type (mkState [] [] IceTcpDirect) = IceTcpDirect)
    by reflexivity.
  assert (Hrun :
    @AppendData Wire.collaborators (mkState [] [] IceTcpDirect)
      (rfc4571_frame Wire.binding_request ++ rfc4571_frame Wire.send_indication)
    = Some (true,
            mkState []
              [mkPacket STUN Wire.binding_request; mkPacket STUN Wire.send_indication]
              IceTcpDirect))
    by run_closed.
  exact (@direct_append_enqueues_frames_only Wire.collaborators
           (mkState [] [] IceTcpDirect)
           (rfc4571_frame Wire.binding_request ++ rfc4571_frame Wire.send_indication)
           true
           (mkState []
              [mkPacket STUN Wire.binding_request; mkPacket STUN Wire.send_indication]
              IceTcpDirect)
           Hty Hrun).
Defined.

(** X3 twice: a frame followed by the first 5 bytes of the next one leaves
    those 5 bytes waiting; a frame followed by the length [00 05] leaves that
    length at the front of the buffer. *)
Lemma direct_append_leaves_no_complete_frame_witness :
  awaiting_bytes [x00; x18; x00; x16; x00]
  /\ stuck_on_length [x00; x05].
Proof.
  assert (Hty : _connection_type (mkState [] [] IceTcpDirect) = IceTcpDirect)
    by reflexivity.
  assert (Hwait :
    @AppendData Wire.collaborators (mkState [] [] IceTcpDirect)
      (rfc4571_frame Wire.binding_request ++ [x00; x18; x00; x16; x00])
    = Some (true,
            mkState [x00; x18; x00; x16; x00] [mkPacket STUN Wire.binding_request]
              IceTcpDirect))
    by run_closed.
  assert (Hfail :
    @AppendData Wire.collaborators (mkState [] [] IceTcpDirect)
      (rfc4571_frame Wire.binding_request ++ [x00; x05])
    = Some (false,
            mkState [x00; x05] [mkPacket STUN Wire.binding_request] IceTcpDirect))
    by run_closed.
  split.
  - exact (@direct_append_leaves_no_complete_frame Wire.collaborators _ _ _ _ Hty Hwait).
  - exact (@direct_append_leaves_no_complete_frame Wire.collaborators _ _ _ _ Hty Hfail).
Defined.

(** X4: after the length [00 05] has failed, a well-formed frame fails
    too and is left in the buffer behind it. *)
Lemma direct_failure_is_final_witness :
  @AppendData Wire.collaborators (mkState [x00; x05] [] IceTcpDirect)
    (rfc4571_frame Wire.binding_request)
  = Some (false,
          mkState ([x00; x05] ++ rfc4571_frame Wire.binding_request) [] IceTcpDirect).
Proof.
  assert (Hty : _connection_type (mkState [] [] IceTcpDirect) = IceTcpDirect)
    by reflexivity.
  assert (Hfail :
    @AppendData Wire.collaborators (mkState [] [] IceTcpDirect) [x00; x05]
    = Some (false, mkState [x00; x05] [] IceTcpDirect))
    by run_closed.
  exact (@direct_failure_is_final Wire.collaborators
           (mkState [] [] IceTcpDirect) [x00; x05]
           (mkState [x00; x05] [] IceTcpDirect) Hty Hfail
           (rfc4571_frame Wire.binding_request)).
Defined.

(** X5 on a frame cut into three chunks, the first of which ends inside the
    length prefix. *)
Lemma direct_chunking_is_invisible_witness :
  @AppendData Wire.collaborators (mkState [] [] IceTcpDirect)
    (concat [[x00]; [x14; x00; x01]; skipn 2 Wire.binding_request])
  = Some (forallb (fun r => r) [true; true; true],
          mkState [] [mkPacket STUN Wire.binding_request] IceTcpDirect).
Proof.
  assert (Hty : _connection_type (mkState [] [] IceTcpDirect) = IceTcpDirect)
    by reflexivity.
  assert (Hfeed :
    @feed Wire.collaborators (mkState [] [] IceTcpDirect)
      [[x00]; [x14; x00; x01]; skipn 2 Wire.binding_request]
    = Some ([true; true; true],
            mkState [] [mkPacket STUN Wire.binding_request] IceTcpDirect))
    by run_closed.
  exact (@direct_chunking_is_invisible Wire.collaborators
           [[x14; x00; x01]; skipn 2 Wire.binding_request]
           (mkState [] [] IceTcpDirect) [x00] [true; true; true]
           (mkState [] [mkPacket STUN Wire.binding_request] IceTcpDirect)
           Hty Hfeed).
Defined.

(** X6 on a binding request framed and appended to an empty buffer. *)
Lemma direct_append_returns_witness :
  exists r s' new,
    @AppendData Wire.collaborators (mkState [] [] IceTcpDirect)
      (rfc4571_frame Wire.binding_request) = Some (r, s')
    /\ _packets s' = [] ++ new
    /\ 22 * Z.of_nat (length new) + GetLength (_buffer s')
       <= GetLength [] + GetLength (rfc4571_frame Wire.binding_request).
Proof.
  assert (Hty : _connection_type (mkState [] [] IceTcpDirect) = IceTcpDirect)
    by reflexivity.
  exact (@direct_append_returns Wire.collaborators (mkState [] [] IceTcpDirect)
           (rfc4571_frame Wire.binding_request) Hty).
Defined.

End DirectFramingRuns.

(** ** Part XIV.  The queue, detection and the TURN relay loop *)

Section QueueIndependence.
Import Demux Driver Framing.
Context {C : Collaborators}.

Lemma push_requeue (q : list Packet) (s : State) (p : Packet) (b : list byte) :
  push (requeue q s) p b = requeue q (push s p b).
Proof.
  unfold push, requeue. cbn [_buffer _packets _connection_type].
  rewrite app_assoc. reflexivity.
Qed.

Lemma ExtractRfc4571Frame_requeue (q : list Packet) (s : State) :
  ExtractRfc4571Frame (requeue q s)
  = (fst (ExtractRfc4571Frame s), requeue q (snd (ExtractRfc4571Frame s))).
Proof.
  unfold ExtractRfc4571Frame. cbv zeta.
  change (_buffer (requeue q s)) with (_buffer s).
  destruct (GetLength (_buffer s) <? RFC4571_HEADER_SIZE); [reflexivity |].
  destruct ((frame_length_of (_buffer s) <? 20) || (frame_length_of (_buffer s) >? 65535));
    [reflexivity |].
  destruct (GetLength (_buffer s) <? RFC4571_HEADER_SIZE + frame_length_of (_buffer s));
    [reflexivity |].
  rewrite push_requeue. reflexivity.
Qed.

Lemma ExtractStunMessage_requeue (q : list Packet) (s : State) :
  ExtractStunMessage (requeue q s)
  = (fst (ExtractStunMessage s), requeue q (snd (ExtractStunMessage s))).
Proof.
  unfold ExtractStunMessage. cbv zeta.
  change (_buffer (requeue q s)) with (_buffer s).
  destruct (StunMessage_ParseHeader (_buffer s)); [| reflexivity | reflexivity].
  rewrite push_requeue. reflexivity.
Qed.

Lemma ExtractChannelMessage_requeue (q : list Packet) (s : State) :
  ExtractChannelMessage (requeue q s)
  = (fst (ExtractChannelMessage s), requeue q (snd (ExtractChannelMessage s))).
Proof.
  unfold ExtractChannelMessage. cbv zeta.
  change (_buffer (requeue q s)) with (_buffer s).
  destruct (ChannelDataMessage_LoadHeader (_buffer s)); [| reflexivity | reflexivity].
  rewrite push_requeue. reflexivity.
Qed.

Lemma rfc4571_loop_requeue (q : list Packet) (fuel : nat) :
  forall s,
    rfc4571_loop fuel (requeue q s)
    = match rfc4571_loop fuel s with
      | Some (r, s') => Some (r, requeue q s')
      | None => None
      end.
Proof.
  induction fuel as [| fuel IH]; intros s; [reflexivity |].
  cbn [rfc4571_loop]. rewrite ExtractRfc4571Frame_requeue.
  change (_buffer (requeue q s)) with (_buffer s).
  destruct (GetLength (_buffer s) >=? RFC4571_HEADER_SIZE); [| reflexivity].
  destruct (ExtractRfc4571Frame s) as [[ | | ] s1]; cbn [fst snd];
    [apply IH | reflexivity | reflexivity].
Qed.

Lemma turn_loop_requeue (q : list Packet) (fuel : nat) :
  forall s,
    turn_loop fuel (requeue q s)
    = match turn_loop fuel s with
      | Some (r, s') => Some (r, requeue q s')
      | None => None
      end.
Proof.
  induction fuel as [| fuel IH]; intros s; [reflexivity |].
  cbn [turn_loop].
  rewrite ExtractStunMessage_requeue, ExtractChannelMessage_requeue.
  change (_buffer (requeue q s)) with (_buffer s).
  destruct (GetLength (_buffer s) >? MINIMUM_PACKET_HEADER_SIZE); [| reflexivity].
  destruct (FindPacketType (_buffer s)); [| | reflexivity].
  - destruct (ExtractStunMessage s) as [[ | | ] s1]; cbn [fst snd];
      [apply IH | reflexivity | reflexivity].
  - destruct (ExtractChannelMessage s) as [[ | | ] s1]; cbn [fst snd];
      [apply IH | reflexivity | reflexivity].
Qed.

Lemma DetectConnectionType_requeue (q : list Packet) (s : State) :
  DetectConnectionType (requeue q s)
  = (fst (DetectConnectionType s), requeue q (snd (DetectConnectionType s))).
Proof.
  unfold DetectConnectionType. cbv zeta. cbn [requeue _buffer].
  repeat match goal with
         | |- context [if ?c then _ else _] =>
             lazymatch c with
             | context [if _ then _ else _] => fail
             | _ => destruct c; cbn [fst snd]
             end
         end; reflexivity.
Qed.

Lemma detect_phase_requeue (q : list Packet) (s : State) :
  detect_phase (requeue q s)
  = match detect_phase s with
    | inl s' => inl (requeue q s')
    | inr s' => inr (requeue q s')
    end.
Proof.
  unfold detect_phase. rewrite DetectConnectionType_requeue.
  change (_connection_type (requeue q s)) with (_connection_type s).
  destruct (_connection_type s); [| reflexivity | reflexivity].
  destruct (DetectConnectionType s) as [[ | ] s1]; cbn [fst snd]; [reflexivity |].
  change (_buffer (requeue q s1)) with (_buffer s1).
  destruct (GetLength (_buffer s1) <? RFC4571_HEADER_SIZE + 1); reflexivity.
Qed.

Lemma ParseData_requeue (q : list Packet) (s : State) :
  ParseData (requeue q s)
  = match ParseData s with
    | Some (r, s') => Some (r, requeue q s')
    | None => None
    end.
Proof.
  unfold ParseData. rewrite detect_phase_requeue.
  destruct (detect_phase s) as [s1 | s1]; [reflexivity |].
  change (_connection_type (requeue q s1)) with (_connection_type s1).
  change (loop_fuel (requeue q s1)) with (loop_fuel s1).
  destruct (_connection_type s1);
    [apply turn_loop_requeue | apply turn_loop_requeue | apply rfc4571_loop_requeue].
Qed.

(** X7.  [AppendData] never reads the queue and only pushes at its back:
    with any packets [q] waiting in front, the call returns the same value,
    leaves the same buffer and type and pushes the same packets, behind [q].
    Packets may therefore be popped before the next call or after it. *)
Theorem AppendData_ignores_waiting_packets (q : list Packet) (s : State)
    (data : list byte) :
  AppendData (requeue q s) data
  = match AppendData s data with
    | Some (r, s') => Some (r, requeue q s')
    | None => None
    end.
Proof.
  unfold AppendData.
  change (mkState (_buffer (requeue q s) ++ data) (_packets (requeue q s))
            (_connection_type (requeue q s)))
    with (requeue q (mkState (_buffer s ++ data) (_packets s) (_connection_type s))).
  apply ParseData_requeue.
Qed.

End QueueIndependence.

Section DetectionTable.
Import Demux Driver Framing.
Context {C : Collaborators}.

(** The first block of [ParseData] on three bytes or more, in closed form. *)
Lemma detect_phase_from_three (s : State) :
  _connection_type s = Unknown ->
  3 <= GetLength (_buffer s) ->
  detect_phase s
  = inr (SetConnectionType s
           (if ((at_ (_buffer s) 0 <=? 3)
                || ((64 <=? at_ (_buffer s) 0) && (at_ (_buffer s) 0 <=? 79)))
               && negb ((at_ (_buffer s) 0 =? 0) && (at_ (_buffer s) 2 <=? 3)
                        && (20 <=? at_ (_buffer s) 1))
            then TurnRelay else IceTcpDirect)).
Proof.
  intros Hty Hlen.
  unfold detect_phase, DetectConnectionType, RFC4571_HEADER_SIZE. cbv zeta.
  rewrite Hty.
  pose proof (at_range (_buffer s) 0) as H0.
  pose proof (at_range (_buffer s) 2) as H2.
  replace (GetLength (_buffer s) <? 2) with false by (symmetry; apply Z.ltb_ge; lia).
  replace (GetLength (_buffer s) >=? 2 + 1) with true
    by (symmetry; rewrite Z.geb_leb; apply Z.leb_le; lia).
  rewrite !Z.geb_leb.
  replace (0 <=? at_ (_buffer s) 0) with true by (symmetry; apply Z.leb_le; lia).
  replace (0 <=? at_ (_buffer s) 2) with true by (symmetry; apply Z.leb_le; lia).
  cbn [andb].
  destruct (at_ (_buffer s) 0 =? 0) eqn:E0;
    destruct (at_ (_buffer s) 2 <=? 3) eqn:E2;
    destruct (20 <=? at_ (_buffer s) 1) eqn:E1;
    destruct (at_ (_buffer s) 0 <=? 3) eqn:E3;
    destruct (64 <=? at_ (_buffer s) 0) eqn:E64;
    destruct (at_ (_buffer s) 0 <=? 79) eqn:E79;
    cbn [andb orb negb SetConnectionType _buffer];
    try reflexivity;
    try (replace (GetLength (_buffer s) <? 2 + 1) with false
           by (symmetry; apply Z.ltb_ge; lia); reflexivity);
    exfalso;
    try apply Z.eqb_eq in E0; try apply Z.leb_gt in E3; lia.
Qed.

(** Neither loop of [ParseData] touches the type. *)
Lemma loops_keep_type (s1 : State) (r : bool) (s' : State) :
  match _connection_type s1 with
  | IceTcpDirect => rfc4571_loop (loop_fuel s1) s1
  | _ => turn_loop (loop_fuel s1) s1
  end = Some (r, s') ->
  _connection_type s' = _connection_type s1.
Proof.
  intros Hrun.
  destruct (_connection_type s1) eqn:E;
    [ apply turn_loop_effect in Hrun
    | apply turn_loop_effect in Hrun
    | apply rfc4571_loop_effect in Hrun ];
    destruct Hrun as [Hkeep _]; congruence.
Qed.

(** X8.  Once three bytes are buffered the type is decided, by the first
    three bytes alone.  A first byte 0 with a second byte of at least 20 and
    a third byte of at most 3 gives IceTcpDirect; failing that, a first byte
    in 0..3 or in 64..79 gives TurnRelay; every other first byte gives
    IceTcpDirect.  The type is never Unknown after such a call. *)
Theorem first_three_bytes_decide (s : State) (data : list byte) (r : bool)
    (s' : State) :
  _connection_type s = Unknown ->
  3 <= GetLength (_buffer s ++ data) ->
  AppendData s data = Some (r, s') ->
  _connection_type s'
  = if ((at_ (_buffer s ++ data) 0 <=? 3)
        || ((64 <=? at_ (_buffer s ++ data) 0) && (at_ (_buffer s ++ data) 0 <=? 79)))
       && negb ((at_ (_buffer s ++ data) 0 =? 0) && (at_ (_buffer s ++ data) 2 <=? 3)
                && (20 <=? at_ (_buffer s ++ data) 1))
    then TurnRelay else IceTcpDirect.
Proof.
  intros Hty Hlen Hrun. unfold AppendData, ParseData in Hrun.
  rewrite (detect_phase_from_three (mkState (_buffer s ++ data) (_packets s)
                                      (_connection_type s)) Hty Hlen) in Hrun.
  apply loops_keep_type in Hrun. exact Hrun.
Qed.

(** X9.  With two bytes or fewer buffered a call of type Unknown extracts
    nothing and returns true.  It leaves the type Unknown, except on exactly
    two bytes the first of which is in 0..3 or in 64..79: then the type is
    TurnRelay already, before a third byte has come. *)
Theorem at_most_two_bytes_wait (s : State) (data : list byte) :
  _connection_type s = Unknown ->
  GetLength (_buffer s ++ data) <= 2 ->
  AppendData s data
  = Some (true,
          if (GetLength (_buffer s ++ data) =? 2)
             && ((at_ (_buffer s ++ data) 0 <=? 3)
                 || ((64 <=? at_ (_buffer s ++ data) 0)
                     && (at_ (_buffer s ++ data) 0 <=? 79)))
          then SetConnectionType (appended s data) TurnRelay
          else appended s data).
Proof.
  intros Hty Hlen. unfold AppendData, ParseData.
  fold (appended s data).
  assert (Hty' : _connection_type (appended s data) = Unknown) by exact Hty.
  change (_buffer s ++ data) with (_buffer (appended s data)) in *.
  destruct (GetLength (_buffer (appended s data)) =? 2) eqn:E2.
  - apply Z.eqb_eq in E2.
    rewrite (detect_phase_two_bytes (appended s data) Hty' E2). cbn [andb].
    destruct ((at_ (_buffer (appended s data)) 0 <=? 3)
              || ((64 <=? at_ (_buffer (appended s data)) 0)
                  && (at_ (_buffer (appended s data)) 0 <=? 79))); [| reflexivity].
    cbn [SetConnectionType _connection_type].
    unfold loop_fuel. cbn [turn_loop].
    change (_buffer (SetConnectionType (appended s data) TurnRelay))
      with (_buffer (appended s data)).
    rewrite E2. reflexivity.
  - apply Z.eqb_neq in E2.
    rewrite (detect_phase_below_two (appended s data) Hty') by lia.
    reflexivity.
Qed.

(** A call that leaves the type Unknown has only buffered its bytes. *)
Lemma AppendData_stays_unknown (s : State) (data : list byte) (r : bool) (s' : State) :
  AppendData s data = Some (r, s') ->
  _connection_type s' = Unknown ->
  s' = appended s data /\ GetLength (_buffer s') < 3.
Proof.
  unfold AppendData, ParseData. fold (appended s data). intros Hrun Hty'.
  pose proof (detect_phase_effect (appended s data)) as Hd.
  destruct (detect_phase (appended s data)) as [s1 | s1] eqn:Hphase.
  - destruct Hd as [-> Hty]. inversion Hrun; subst s'. split; [reflexivity |].
    destruct (Z_lt_ge_dec (GetLength (_buffer (appended s data))) 3) as [Hlt | Hge];
      [exact Hlt |].
    destruct (detect_phase_three_bytes (appended s data) Hty) as (t & _ & Hinr); [lia |].
    rewrite Hinr in Hphase. discriminate Hphase.
  - destruct Hd as (_ & _ & Hdecided & _). exfalso. apply Hdecided.
    rewrite <- (loops_keep_type s1 r s' Hrun). exact Hty'.
Qed.

Lemma run_ends_unknown (ops : list Op) :
  forall s s',
    forallb (fun o => negb (is_override o)) ops = true ->
    run s ops = Some s' ->
    _connection_type s' = Unknown ->
    _connection_type s = Unknown.
Proof.
  induction ops as [| o ops IH]; intros s s' Hops Hrun Hty'; cbn [run] in Hrun.
  - inversion Hrun; subst. exact Hty'.
  - cbn [forallb] in Hops. apply andb_true_iff in Hops. destruct Hops as [Ho Hops].
    apply negb_true_iff in Ho.
    destruct (exec s o) as [s1 |] eqn:Hex; [| discriminate].
    pose proof (IH s1 s' Hops Hrun Hty') as H1.
    destruct (exec_mode s o s1 Ho Hex) as [H | H]; unfold GetConnectionType in H;
      congruence.
Qed.

Lemma run_unknown_buffers (ops : list Op) :
  forall s s',
    forallb (fun o => negb (is_override o)) ops = true ->
    _packets s = [] ->
    GetLength (_buffer s) < 3 ->
    run s ops = Some s' ->
    _connection_type s' = Unknown ->
    _packets s' = []
    /\ _buffer s' = _buffer s ++ appended_bytes ops
    /\ GetLength (_buffer s') < 3.
Proof.
  induction ops as [| o ops IH]; intros s s' Hops Hq Hlen Hrun Hty'.
  - cbn [run] in Hrun. inversion Hrun; subst. cbn [appended_bytes].
    rewrite app_nil_r. repeat split; assumption.
  - pose proof (run_ends_unknown (o :: ops) s s' Hops Hrun Hty') as Hty.
    cbn [run] in Hrun. cbn [forallb] in Hops.
    apply andb_true_iff in Hops. destruct Hops as [Ho Hops].
    destruct (exec s o) as [s1 |] eqn:Hex; [| discriminate].
    pose proof (run_ends_unknown ops s1 s' Hops Hrun Hty') as Hty1.
    destruct o as [data | | | | | t]; cbn [exec] in Hex; cbn [appended_bytes];
      try discriminate Ho.
    + destruct (AppendData s data) as [[r s2] |] eqn:Hap; [| discriminate].
      inversion Hex; subst s2. clear Hex.
      destruct (AppendData_stays_unknown s data r s1 Hap Hty1) as [Hs1 Hlen1].
      destruct (IH s1 s' Hops) as (Hq' & Hb' & Hlen'); try assumption.
      { rewrite Hs1. exact Hq. }
      repeat split; try assumption.
      rewrite Hb', Hs1. cbn [appended _buffer]. rewrite app_assoc. reflexivity.
    + inversion Hex; subst s1. clear Hex.
      unfold PopPacket in *. rewrite Hq in *. cbn [snd] in *.
      apply (IH s s' Hops Hq Hlen Hrun Hty').
    + inversion Hex; subst s1. apply (IH s s' Hops Hq Hlen Hrun Hty').
    + inversion Hex; subst s1. apply (IH s s' Hops Hq Hlen Hrun Hty').
    + inversion Hex; subst s1. apply (IH s s' Hops Hq Hlen Hrun Hty').
Qed.

(** X10.  A demultiplexer used from its construction without
    [SetConnectionType] that still reports Unknown has extracted nothing: its
    queue is empty, and its buffer holds every byte ever appended, of which
    there are at most two. *)
Theorem unknown_type_has_extracted_nothing (ops : list Op) (s' : State) :
  forallb (fun o => negb (is_override o)) ops = true ->
  run init ops = Some s' ->
  GetConnectionType s' = Unknown ->
  IsAvailablePacket s' = false
  /\ _buffer s' = appended_bytes ops
  /\ GetLength (appended_bytes ops) <= 2.
Proof.
  intros Hops Hrun Hty'.
  destruct (run_unknown_buffers ops init s' Hops eq_refl) as (Hq & Hb & Hlen);
    [cbn; lia | exact Hrun | exact Hty' |].
  cbn [init _buffer app] in Hb.
  unfold IsAvailablePacket. rewrite Hq. rewrite <- Hb.
  split; [reflexivity |]. split; [reflexivity | lia].
Qed.

End DetectionTable.

Section TurnStream.
Import Demux Driver Framing.
Context {C : Collaborators}.

(** What the TURN relay loop does to the buffer and the queue. *)
Lemma turn_loop_spec (fuel : nat) :
  forall s r s',
    turn_loop fuel s = Some (r, s') ->
    exists new,
      _packets s' = _packets s ++ new
      /\ Forall turn_labelled new
      /\ _buffer s = flat_map _data new ++ _buffer s'.
Proof.
  assert (Hstay : forall s : State,
            exists new, _packets s = _packets s ++ new
                        /\ Forall turn_labelled new
                        /\ _buffer s = flat_map _data new ++ _buffer s).
  { intros s. exists []. rewrite app_nil_r. repeat split. constructor. }
  assert (Hpush : forall (s : State) (ty : PacketType) (k : Z) (s' : State),
            turn_labelled (mkPacket ty (Subdata (_buffer s) 0 k)) ->
            (exists new,
               _packets s'
               = _packets (push s (mkPacket ty (Subdata (_buffer s) 0 k))
                             (Subdata_from (_buffer s) k)) ++ new
               /\ Forall turn_labelled new
               /\ _buffer (push s (mkPacket ty (Subdata (_buffer s) 0 k))
                             (Subdata_from (_buffer s) k))
                  = flat_map _data new ++ _buffer s') ->
            exists new,
              _packets s' = _packets s ++ new
              /\ Forall turn_labelled new
              /\ _buffer s = flat_map _data new ++ _buffer s').
  { intros s ty k s' Hlab (new & Hq & Hall & Hb).
    exists (mkPacket ty (Subdata (_buffer s) 0 k) :: new).
    cbn [push _packets _buffer] in Hq, Hb.
    split; [rewrite Hq, <- app_assoc; reflexivity |].
    split; [constructor; assumption |].
    cbn [flat_map _data]. rewrite <- app_assoc, <- Hb.
    unfold Subdata, Subdata_from. cbn [Z.to_nat skipn].
    symmetry. apply firstn_skipn. }
  induction fuel as [| fuel IH]; intros s r s' Hrun; cbn [turn_loop] in Hrun;
    [discriminate |].
  destruct (GetLength (_buffer s) >? MINIMUM_PACKET_HEADER_SIZE).
  - destruct (FindPacketType (_buffer s)).
    + unfold ExtractStunMessage in Hrun.
      destruct (StunMessage_ParseHeader (_buffer s)) as [m | |].
      * apply (Hpush s STUN (uint32 (DefaultHeaderLength + m)) s');
          [left; reflexivity | apply (IH _ r s' Hrun)].
      * inversion Hrun; subst. apply Hstay.
      * inversion Hrun; subst. apply Hstay.
    + unfold ExtractChannelMessage in Hrun.
      destruct (ChannelDataMessage_LoadHeader (_buffer s)) as [n | |].
      * apply (Hpush s TURN_CHANNEL_DATA (uint32 n) s');
          [right; reflexivity | apply (IH _ r s' Hrun)].
      * inversion Hrun; subst. apply Hstay.
      * inversion Hrun; subst. apply Hstay.
    + inversion Hrun; subst. apply Hstay.
  - inversion Hrun; subst. apply Hstay.
Qed.

(** X11.  In TurnRelay mode the packets are cut from the front of the
    stream with nothing dropped between them: the bytes buffered before the
    call followed by the bytes appended are the data of the packets the call
    enqueued, in order, followed by what it leaves in the buffer; and each of
    those packets is labelled STUN or TURN_CHANNEL_DATA, never UNKNOWN.  (A
    size a decoder reports beyond the end of the buffer takes the bytes that
    are there.) *)
Theorem turn_append_accounts_for_every_byte (s : State) (data : list byte)
    (r : bool) (s' : State) :
  _connection_type s = TurnRelay ->
  AppendData s data = Some (r, s') ->
  exists new,
    _packets s' = _packets s ++ new
    /\ Forall turn_labelled new
    /\ _buffer s ++ data = flat_map _data new ++ _buffer s'.
Proof.
  intros Hty Hrun. unfold AppendData in Hrun.
  rewrite ParseData_turn in Hrun by exact Hty.
  apply turn_loop_spec in Hrun. exact Hrun.
Qed.

(** X12.  The TURN relay loop does not look at a buffer of four bytes or
    fewer: the call returns true and keeps the bytes, also when they are a
    complete Channel Data message with an empty payload, which is delivered
    only once a fifth byte has arrived. *)
Theorem turn_append_waits_for_five_bytes (s : State) (data : list byte) :
  _connection_type s = TurnRelay ->
  GetLength (_buffer s ++ data) <= 4 ->
  AppendData s data = Some (true, appended s data).
Proof.
  intros Hty Hlen. unfold AppendData.
  rewrite ParseData_turn by exact Hty.
  unfold loop_fuel. cbn [turn_loop _buffer]. unfold MINIMUM_PACKET_HEADER_SIZE.
  replace (GetLength (_buffer s ++ data) >? 4) with false
    by (symmetry; rewrite Z.gtb_ltb; apply Z.ltb_ge; lia).
  reflexivity.
Qed.

(** X13.  When the two decoders never report an empty packet, every call of
    [AppendData] returns, whatever the type and the bytes, and so does every
    run of operations.  (A size a decoder reports beyond the end of the
    buffer takes the bytes that are there.) *)
Theorem every_run_returns
    (stun_progress : forall b m,
        StunMessage_ParseHeader b = Parsed m -> 0 < uint32 (DefaultHeaderLength + m))
    (channel_progress : forall b n,
        ChannelDataMessage_LoadHeader b = Parsed n -> 0 < uint32 n)
    (ops : list Op) :
  forall s, exists s', run s ops = Some s'.
Proof.
  induction ops as [| o ops IH]; intros s; cbn [run].
  - exists s. reflexivity.
  - destruct o as [data | | | | | t]; cbn [exec]; try apply IH.
    destruct (AppendData_returns stun_progress channel_progress s data)
      as (r & s1 & Hap).
    rewrite Hap. apply IH.
Qed.

End TurnStream.

Section FreshStream.
Import Demux Driver Framing.
Context {C : Collaborators}.

Lemma u8_byte_of (z : Z) : u8 (byte_of z) = z mod 256.
Proof.
  unfold byte_of, u8.
  pose proof (Z.mod_pos_bound z 256 ltac:(lia)) as Hz.
  destruct (Byte.of_N (Z.to_N (z mod 256))) as [b |] eqn:Hb.
  - apply Byte.to_of_N in Hb. rewrite Hb. lia.
  - apply Byte.of_N_None_iff in Hb. lia.
Qed.

Lemma rfc4571_frame_bytes (payload : list byte) :
  GetLength payload <= 65535 ->
  at_ (rfc4571_frame payload) 0 = GetLength payload / 256
  /\ at_ (rfc4571_frame payload) 1 = GetLength payload mod 256
  /\ at_ (rfc4571_frame payload) 2 = at_ payload 0
  /\ frame_length_of (rfc4571_frame payload) = GetLength payload
  /\ GetLength (rfc4571_frame payload) = 2 + GetLength payload.
Proof.
  intros Hlen. pose proof (GetLength_nonneg payload) as H0.
  assert (Hhi : at_ (rfc4571_frame payload) 0 = GetLength payload / 256).
  { unfold at_, rfc4571_frame. cbn [nth]. rewrite u8_byte_of.
    apply Z.mod_small. split; [apply Z.div_pos; lia |].
    apply Z.div_lt_upper_bound; lia. }
  assert (Hlo : at_ (rfc4571_frame payload) 1 = GetLength payload mod 256).
  { unfold at_, rfc4571_frame. cbn [nth]. apply u8_byte_of. }
  split; [exact Hhi |]. split; [exact Hlo |].
  split; [unfold at_, rfc4571_frame; destruct payload; reflexivity |].
  split.
  - rewrite frame_length_of_be, Hhi, Hlo.
    pose proof (Z.div_mod (GetLength payload) 256 ltac:(lia)). lia.
  - unfold rfc4571_frame, GetLength. cbn [length]. lia.
Qed.

Lemma ParseData_detected_direct (s s1 : State) :
  detect_phase s = inr s1 ->
  _connection_type s1 = IceTcpDirect ->
  ParseData s = ParseData s1.
Proof.
  intros Hphase Hty. rewrite (ParseData_direct s1 Hty).
  unfold ParseData. rewrite Hphase, Hty. reflexivity.
Qed.

(** X14.  Framing then demultiplexing gives the payload back.  A new
    demultiplexer fed the RFC 4571 frame of a payload of 20 to 65535 bytes
    detects IceTcpDirect, returns true and holds exactly that payload as its
    one packet, with an empty buffer, provided the frame does not look like
    TURN: the payload is shorter than 256 bytes and starts with a byte of at
    most 3, or its length is in 1024..16383 or at least 20480. *)
Theorem fresh_frame_round_trip (payload : list byte) :
  20 <= GetLength payload <= 65535 ->
  (GetLength payload < 256 /\ at_ payload 0 <= 3)
  \/ 1024 <= GetLength payload < 16384
  \/ 20480 <= GetLength payload ->
  AppendData init (rfc4571_frame payload)
  = Some (true,
          mkState [] [mkPacket (FindPacketType payload) payload] IceTcpDirect).
Proof.
  intros Hlen Hshape.
  destruct (rfc4571_frame_bytes payload) as (Hb0 & Hb1 & Hb2 & HL & Hn); [lia |].
  unfold AppendData. cbn [init _buffer _packets _connection_type app].
  set (s0 := mkState (rfc4571_frame payload) [] Unknown).
  assert (Hphase : detect_phase s0 = inr (SetConnectionType s0 IceTcpDirect)).
  { rewrite (detect_phase_from_three s0) by (cbn [s0 _buffer _connection_type]; first [reflexivity | lia]).
    cbn [s0 _buffer]. rewrite Hb0, Hb1, Hb2.
    pose proof (at_range payload 0) as Hp0.
    assert (Hdiv : GetLength payload = 256 * (GetLength payload / 256)
                                       + GetLength payload mod 256)
      by (apply Z.div_mod; lia).
    pose proof (Z.mod_pos_bound (GetLength payload) 256 ltac:(lia)) as Hmod.
    destruct Hshape as [[Hshort Hstun] | [Hmid | Hbig]].
    - assert (Hq : GetLength payload / 256 = 0) by (apply Z.div_small; lia).
      rewrite Hq. rewrite Z.mod_small by lia.
      replace (at_ payload 0 <=? 3) with true by (symmetry; apply Z.leb_le; lia).
      replace (20 <=? GetLength payload) with true by (symmetry; apply Z.leb_le; lia).
      reflexivity.
    - replace (GetLength payload / 256 <=? 3) with false
        by (symmetry; apply Z.leb_gt; lia).
      replace (64 <=? GetLength payload / 256) with false
        by (symmetry; apply Z.leb_gt; lia).
      reflexivity.
    - replace (GetLength payload / 256 <=? 3) with false
        by (symmetry; apply Z.leb_gt; lia).
      replace (GetLength payload / 256 <=? 79) with false
        by (symmetry; apply Z.leb_gt; lia).
      rewrite andb_false_r. reflexivity. }
  rewrite (ParseData_detected_direct s0 _ Hphase eq_refl).
  change (SetConnectionType s0 IceTcpDirect)
    with (mkState (rfc4571_frame payload) [] IceTcpDirect).
  rewrite <- (app_nil_r (rfc4571_frame payload)) at 1.
  rewrite ParseData_direct_frame_app by lia.
  rewrite HL.
  assert (Hpayload : Subdata (rfc4571_frame payload) 2 (GetLength payload) = payload).
  { unfold Subdata, rfc4571_frame, GetLength. cbn [Z.to_nat Pos.to_nat Pos.iter_op Nat.add skipn].
    rewrite Nat2Z.id. apply firstn_all. }
  assert (Hrest : Subdata_from (rfc4571_frame payload) (2 + GetLength payload) = []).
  { unfold Subdata_from. apply skipn_all2. unfold GetLength in *. lia. }
  rewrite Hpayload, Hrest. reflexivity.
Qed.

(** X15.  A new demultiplexer takes an RFC 4571 stream for TURN when its
    first frame has a payload shorter than 256 bytes that starts with a byte
    above 3 (DTLS, for one), or a payload of 256..1023 or 16384..20479 bytes:
    the call that brings the first frame sets the type to TurnRelay, and the
    length prefix is then read as the start of a STUN or Channel Data
    message. *)
Theorem fresh_frame_taken_for_turn (payload : list byte) (r : bool) (s' : State) :
  20 <= GetLength payload <= 65535 ->
  (GetLength payload < 256 /\ 3 < at_ payload 0)
  \/ 256 <= GetLength payload < 1024
  \/ 16384 <= GetLength payload < 20480 ->
  AppendData init (rfc4571_frame payload) = Some (r, s') ->
  _connection_type s' = TurnRelay.
Proof.
  intros Hlen Hshape Hrun.
  destruct (rfc4571_frame_bytes payload) as (Hb0 & Hb1 & Hb2 & HL & Hn); [lia |].
  unfold AppendData, ParseData in Hrun.
  cbn [init _buffer _packets _connection_type app] in Hrun.
  set (s0 := mkState (rfc4571_frame payload) [] Unknown) in *.
  assert (Hphase : detect_phase s0 = inr (SetConnectionType s0 TurnRelay)).
  { rewrite (detect_phase_from_three s0) by (cbn [s0 _buffer _connection_type]; first [reflexivity | lia]).
    cbn [s0 _buffer]. rewrite Hb0, Hb1, Hb2.
    pose proof (at_range payload 0) as Hp0.
    assert (Hdiv : GetLength payload = 256 * (GetLength payload / 256)
                                       + GetLength payload mod 256)
      by (apply Z.div_mod; lia).
    pose proof (Z.mod_pos_bound (GetLength payload) 256 ltac:(lia)) as Hmod.
    destruct Hshape as [[Hshort Hother] | [Hmid | Hbig]].
    - assert (Hq : GetLength payload / 256 = 0) by (apply Z.div_small; lia).
      rewrite Hq.
      replace (at_ payload 0 <=? 3) with false by (symmetry; apply Z.leb_gt; lia).
      reflexivity.
    - replace (GetLength payload / 256 <=? 3) with true
        by (symmetry; apply Z.leb_le; lia).
      replace (GetLength payload / 256 =? 0) with false
        by (symmetry; apply Z.eqb_neq; lia).
      reflexivity.
    - replace (GetLength payload / 256 =? 0) with false
        by (symmetry; apply Z.eqb_neq; lia).
      replace (64 <=? GetLength payload / 256) with true
        by (symmetry; apply Z.leb_le; lia).
      replace (GetLength payload / 256 <=? 79) with true
        by (symmetry; apply Z.leb_le; lia).
      rewrite orb_true_r. reflexivity. }
  rewrite Hphase in Hrun. cbn [SetConnectionType _connection_type] in Hrun.
  apply turn_loop_effect in Hrun. exact (proj1 Hrun).
Qed.

Lemma rfc4571_frame_cut (payload rest : list byte) :
  GetLength payload <= 65535 ->
  Subdata (rfc4571_frame payload ++ rest) 2 (GetLength payload) = payload
  /\ Subdata_from (rfc4571_frame payload ++ rest) (2 + GetLength payload) = rest.
Proof.
  intros Hlen. pose proof (GetLength_nonneg payload) as H0.
  unfold Subdata, Subdata_from, rfc4571_frame, GetLength in *.
  replace (Z.to_nat (2 + Z.of_nat (length payload))) with (S (S (length payload)))
    by lia.
  change (Z.to_nat 2) with 2%nat. cbn [skipn app].
  rewrite Nat2Z.id. split.
  - rewrite firstn_app, Nat.sub_diag, firstn_all, firstn_O, app_nil_r. reflexivity.
  - rewrite skipn_app, Nat.sub_diag, skipn_all. reflexivity.
Qed.

(** X16.  What was framed is what comes out.  In IceTcpDirect mode, on an
    empty buffer, one call with the RFC 4571 frames of any list of packets of
    20 to 65535 bytes each returns true, empties the buffer and pushes those
    very packets, in order, behind the ones that were waiting. *)
Theorem direct_frames_round_trip (ps : list Packet) :
  forall q : list Packet,
    Forall direct_packet ps ->
    AppendData (mkState [] q IceTcpDirect) (frames ps)
    = Some (true, mkState [] (q ++ ps) IceTcpDirect).
Proof.
  unfold AppendData. cbn [_buffer _packets _connection_type app].
  induction ps as [| p ps IH]; intros q Hall.
  - rewrite app_nil_r. reflexivity.
  - inversion Hall as [| p0 ps0 [Hlen Hlabel] Hrest]; subst.
    change (frames (p :: ps)) with (rfc4571_frame (_data p) ++ frames ps).
    destruct (rfc4571_frame_bytes (_data p)) as (_ & _ & _ & HL & Hn); [lia |].
    rewrite ParseData_direct_frame_app by lia.
    rewrite HL.
    destruct (rfc4571_frame_cut (_data p) []) as [Hcut Hleft]; [lia |].
    rewrite app_nil_r in Hcut, Hleft. rewrite Hcut, Hleft.
    rewrite <- Hlabel. cbn [app].
    replace (mkPacket (_type p) (_data p)) with p by (destruct p; reflexivity).
    rewrite (IH (q ++ [p]) Hrest), <- app_assoc. reflexivity.
Qed.

End FreshStream.

(** ** Part XV.  Detection and the TURN relay loop on concrete streams *)

Section WireFacts.
Import Demux.

Lemma be16_range (d : list byte) (i : nat) : 0 <= Wire.be16 d i <= 65535.
Proof.
  unfold Wire.be16.
  pose proof (at_range d i). pose proof (at_range d (S i)). lia.
Qed.

(** The STUN stand-in never reports an empty packet. *)
Lemma stun_parse_header_progress (b : list byte) (m : Z) :
  Wire.stun_parse_header b = Parsed m -> 0 < uint32 (DefaultHeaderLength + m).
Proof.
  unfold Wire.stun_parse_header. intros Hparse.
  repeat match type of Hparse with
         | (if ?c then _ else _) = _ => destruct c; try discriminate Hparse
         end.
  apply (f_equal (fun h => match h with Parsed k => k | _ => 0 end)) in Hparse.
  subst m. pose proof (be16_range b 2) as Hr.
  unfold uint32, DefaultHeaderLength. change (2 ^ 32) with 4294967296.
  rewrite Z.mod_small; lia.
Qed.

(** Nor does the Channel Data stand-in. *)
Lemma channel_load_header_progress (b : list byte) (n : Z) :
  Wire.channel_load_header b = Parsed n -> 0 < uint32 n.
Proof.
  unfold Wire.channel_load_header. cbv zeta. intros Hparse.
  repeat match type of Hparse with
         | (if ?c then _ else _) = _ => destruct c; try discriminate Hparse
         end.
  apply (f_equal (fun h => match h with Parsed k => k | _ => 0 end)) in Hparse.
  subst n. pose proof (be16_range b 2) as Hr.
  assert (Hq : 0 <= (Wire.be16 b 2 + 3) / 4 < 65539).
  { split; [apply Z.div_pos; lia | apply Z.div_lt_upper_bound; lia]. }
  unfold uint32. change (2 ^ 32) with 4294967296.
  rewrite Z.mod_small; lia.
Qed.

End WireFacts.

Section MoreRuns.
Import Demux Driver Framing.

(** X8 on a new demultiplexer fed [00 14 00], the start of a framed binding
    request: the type is IceTcpDirect. *)
Lemma first_three_bytes_decide_witness :
  @AppendData Wire.collaborators init [x00; x14; x00]
  = Some (true, mkState [x00; x14; x00] [] IceTcpDirect)
  /\ _connection_type (mkState [x00; x14; x00] [] IceTcpDirect) = IceTcpDirect.
Proof.
  assert (Hty : _connection_type init = Unknown) by reflexivity.
  assert (Hlen : 3 <= GetLength (_buffer init ++ [x00; x14; x00])) by run_closed.
  assert (Hrun :
    @AppendData Wire.collaborators init [x00; x14; x00]
    = Some (true, mkState [x00; x14; x00] [] IceTcpDirect))
    by run_closed.
  split; [exact Hrun |].
  exact (@first_three_bytes_decide Wire.collaborators init [x00; x14; x00] true
           (mkState [x00; x14; x00] [] IceTcpDirect) Hty Hlen Hrun).
Defined.

(** X9 on the two bytes [00 44]: the type is TurnRelay after two bytes. *)
Lemma at_most_two_bytes_wait_witness :
  @AppendData Wire.collaborators init [x00; x44]
  = Some (true, mkState [x00; x44] [] TurnRelay).
Proof.
  assert (Hty : _connection_type init = Unknown) by reflexivity.
  assert (Hlen : GetLength (_buffer init ++ [x00; x44]) <= 2) by run_closed.
  exact (@at_most_two_bytes_wait Wire.collaborators init [x00; x44] Hty Hlen).
Defined.

(** X10 on two one-byte calls with a [PopPacket] between them; the first
    byte, 0x16, is in neither TURN range. *)
Lemma unknown_type_has_extracted_nothing_witness :
  IsAvailablePacket (mkState [x16; xfe] [] Unknown) = false
  /\ _buffer (mkState [x16; xfe] [] Unknown)
     = appended_bytes [OpAppendData [x16]; OpPopPacket; OpAppendData [xfe]]
  /\ GetLength (appended_bytes [OpAppendData [x16]; OpPopPacket; OpAppendData [xfe]])
     <= 2.
Proof.
  assert (Hops :
    forallb (fun o => negb (is_override o))
      [OpAppendData [x16]; OpPopPacket; OpAppendData [xfe]] = true)
    by reflexivity.
  assert (Hrun :
    @run Wire.collaborators init [OpAppendData [x16]; OpPopPacket; OpAppendData [xfe]]
    = Some (mkState [x16; xfe] [] Unknown))
    by run_closed.
  assert (Hty : GetConnectionType (mkState [x16; xfe] [] Unknown) = Unknown)
    by reflexivity.
  exact (@unknown_type_has_extracted_nothing Wire.collaborators
           [OpAppendData [x16]; OpPopPacket; OpAppendData [xfe]]
           (mkState [x16; xfe] [] Unknown) Hops Hrun Hty).
Defined.

(** X11 on a binding request, a Channel Data message and one more byte in
    one call. *)
Lemma turn_append_accounts_for_every_byte_witness :
  exists new,
    [mkPacket STUN Wire.binding_request; mkPacket TURN_CHANNEL_DATA channel_data_message]
    = [] ++ new
    /\ Forall turn_labelled new
    /\ [] ++ (Wire.binding_request ++ channel_data_message ++ [x00])
       = flat_map _data new ++ [x00].
Proof.
  assert (Hty : _connection_type (mkState [] [] TurnRelay) = TurnRelay) by reflexivity.
  assert (Hrun :
    @AppendData Wire.collaborators (mkState [] [] TurnRelay)
      (Wire.binding_request ++ channel_data_message ++ [x00])
    = Some (true,
            mkState [x00]
              [mkPacket STUN Wire.binding_request;
               mkPacket TURN_CHANNEL_DATA channel_data_message]
              TurnRelay))
    by run_closed.
  exact (@turn_append_accounts_for_every_byte Wire.collaborators
           (mkState [] [] TurnRelay)
           (Wire.binding_request ++ channel_data_message ++ [x00]) true
           (mkState [x00]
              [mkPacket STUN Wire.binding_request;
               mkPacket TURN_CHANNEL_DATA channel_data_message]
              TurnRelay)
           Hty Hrun).
Defined.

(** X12 on the four bytes of a Channel Data message with no payload. *)
Lemma turn_append_waits_for_five_bytes_witness :
  @AppendData Wire.collaborators (mkState [] [] TurnRelay) [x40; x00; x00; x00]
  = Some (true, appended (mkState [] [] TurnRelay) [x40; x00; x00; x00]).
Proof.
  assert (Hty : _connection_type (mkState [] [] TurnRelay) = TurnRelay) by reflexivity.
  assert (Hlen :
    GetLength (_buffer (mkState [] [] TurnRelay) ++ [x40; x00; x00; x00]) <= 4)
    by run_closed.
  exact (@turn_append_waits_for_five_bytes Wire.collaborators
           (mkState [] [] TurnRelay) [x40; x00; x00; x00] Hty Hlen).
Defined.

(** X13 on the two stand-in decoders. *)
Lemma every_run_returns_witness :
  exists s',
    @run Wire.collaborators init
      [OpAppendData Wire.binding_request; OpPopPacket; OpAppendData channel_data_message]
    = Some s'.
Proof.
  exact (@every_run_returns Wire.collaborators
           stun_parse_header_progress channel_load_header_progress
           [OpAppendData Wire.binding_request; OpPopPacket; OpAppendData channel_data_message]
           init).
Defined.

(** X14 on a framed binding request. *)
Lemma fresh_frame_round_trip_witness :
  @AppendData Wire.collaborators init (rfc4571_frame Wire.binding_request)
  = Some (true, mkState [] [mkPacket STUN Wire.binding_request] IceTcpDirect).
Proof.
  assert (Hlen : 20 <= GetLength Wire.binding_request <= 65535)
    by (split; run_closed).
  assert (Hshape :
    (GetLength Wire.binding_request < 256 /\ at_ Wire.binding_request 0 <= 3)
    \/ 1024 <= GetLength Wire.binding_request < 16384
    \/ 20480 <= GetLength Wire.binding_request)
    by (left; split; run_closed).
  exact (@fresh_frame_round_trip Wire.collaborators Wire.binding_request Hlen Hshape).
Defined.

(** X15 on a framed payload of 20 bytes that starts with 0x16, the first
    byte of a DTLS handshake record: the type becomes TurnRelay and the call
    fails on what it reads as a STUN header. *)
Lemma fresh_frame_taken_for_turn_witness :
  @AppendData Wire.collaborators init (rfc4571_frame (repeat x16 20))
  = Some (false, mkState (rfc4571_frame (repeat x16 20)) [] TurnRelay)
  /\ _connection_type (mkState (rfc4571_frame (repeat x16 20)) [] TurnRelay)
     = TurnRelay.
Proof.
  assert (Hlen : 20 <= GetLength (repeat x16 20) <= 65535)
    by (split; run_closed).
  assert (Hshape :
    (GetLength (repeat x16 20) < 256 /\ 3 < at_ (repeat x16 20) 0)
    \/ 256 <= GetLength (repeat x16 20) < 1024
    \/ 16384 <= GetLength (repeat x16 20) < 20480)
    by (left; split; run_closed).
  assert (Hrun :
    @AppendData Wire.collaborators init (rfc4571_frame (repeat x16 20))
    = Some (false, mkState (rfc4571_frame (repeat x16 20)) [] TurnRelay))
    by run_closed.
  split; [exact Hrun |].
  exact (@fresh_frame_taken_for_turn Wire.collaborators (repeat x16 20) false
           (mkState (rfc4571_frame (repeat x16 20)) [] TurnRelay)
           Hlen Hshape Hrun).
Defined.

(** X16 on a binding request and a Send indication, behind one packet that
    was waiting. *)
Lemma direct_frames_round_trip_witness :
  @AppendData Wire.collaborators
    (mkState [] [mkPacket TURN_CHANNEL_DATA channel_data_message] IceTcpDirect)
    (frames [mkPacket STUN Wire.binding_request; mkPacket STUN Wire.send_indication])
  = Some (true,
          mkState []
            ([mkPacket TURN_CHANNEL_DATA channel_data_message]
             ++ [mkPacket STUN Wire.binding_request;
                 mkPacket STUN Wire.send_indication])
            IceTcpDirect).
Proof.
  assert (Hall :
    Forall (@direct_packet Wire.collaborators)
      [mkPacket STUN Wire.binding_request; mkPacket STUN Wire.send_indication]).
  { repeat constructor; run_closed. }
  exact (@direct_frames_round_trip Wire.collaborators
           [mkPacket STUN Wire.binding_request; mkPacket STUN Wire.send_indication]
           [mkPacket TURN_CHANNEL_DATA channel_data_message] Hall).
Defined.

End MoreRuns.
